(** * Intelligent document analyst: segmentation, scoring and ranking

    A shallow embedding of the Python sources
    [section_extractor.py], [model_manager.py], [persona_analyzer.py] and
    [relevance_ranker.py], followed by the properties of the specification
    that concern them.

    Conventions of the embedding.
    - A Python [str] is a [string]; its characters are the code points
      U+0000..U+00FF (Latin-1).  On that range [str.lower], [str.isspace],
      and the classes [\d], [\s] and [[A-Z]] of the [re] module are the
      functions given in [Module Py] below.
    - A Python [float] is an exact rational of [Q]; equalities between
      scores are [Qeq].  Arithmetic on it is exact: the rounding of the
      interpreter to binary64 numbers is not modelled, so a statement
      about the value of a score holds in the code up to that rounding,
      and the statement about the order of the ranking is made for any
      scores.
    - A Python [int] that counts characters or list positions is a [nat],
      a page number is a [Z].
    - An exception is a value [Err e] of the error monad [result]; a
      [try ... except Exception] is a [match] on it.
    - Logging calls are left out: they do not take part in any return
      value, except where formatting the message itself can raise. *)

From Stdlib Require Import Ascii QArith Qabs Qminmax Lqa.
From stdpp Require Import base option list sorting gmap strings pretty.

Local Open Scope Z_scope.
Local Open Scope nat_scope.

(** ** Exceptions *)

Inductive exn : Type :=
| IndexError
| KeyError
| ImportError
| RuntimeError.

Inductive result (A : Type) : Type :=
| Ok (a : A)
| Err (e : exn).
Arguments Ok {A} a.
Arguments Err {A} e.

Global Instance result_ret : MRet result := fun A a => Ok a.
Global Instance result_bind : MBind result := fun A B k r =>
  match r with
  | Ok a => k a
  | Err e => Err e
  end.

(** ** Python strings *)

Module Py.

Definition code (c : ascii) : nat := nat_of_ascii c.

(** [str.isspace] for one character, also the class [\s] of [re]. *)
Definition is_space (c : ascii) : bool :=
  let n := code c in
  ((9 <=? n) && (n <=? 13)) || ((28 <=? n) && (n <=? 32))
  || (n =? 133) || (n =? 160).

(** The class [\d]. *)
Definition is_digit (c : ascii) : bool :=
  let n := code c in (48 <=? n) && (n <=? 57).

(** The class [[A-Z]] under [re.IGNORECASE]. *)
Definition is_letter (c : ascii) : bool :=
  let n := code c in
  ((65 <=? n) && (n <=? 90)) || ((97 <=? n) && (n <=? 122)).

Definition lower_char (c : ascii) : ascii :=
  let n := code c in
  if ((65 <=? n) && (n <=? 90))
     || ((192 <=? n) && (n <=? 222) && negb (n =? 215))
  then ascii_of_nat (n + 32) else c.

(** [s.lower()] *)
Fixpoint lower (s : string) : string :=
  match s with
  | EmptyString => EmptyString
  | String c s' => String (lower_char c) (lower s')
  end.

(** [len(s)] *)
Definition len (s : string) : nat := String.length s.

(** [s[n:]] *)
Fixpoint slice_from (n : nat) (s : string) : string :=
  match n, s with
  | 0, _ => s
  | S n', String _ s' => slice_from n' s'
  | S _, EmptyString => EmptyString
  end.

(** [s[:n]] *)
Fixpoint slice_to (n : nat) (s : string) : string :=
  match n, s with
  | S n', String c s' => String c (slice_to n' s')
  | _, _ => EmptyString
  end.

(** [s[a:b]] for non-negative [a] and [b]. *)
Definition slice (a b : nat) (s : string) : string :=
  slice_to (b - a) (slice_from a s).

Fixpoint startswith (p s : string) : bool :=
  match p, s with
  | EmptyString, _ => true
  | String a p', String b s' => if ascii_dec a b then startswith p' s' else false
  | String _ _, EmptyString => false
  end.

(** [sub in s] *)
Fixpoint str_in (sub s : string) : bool :=
  startswith sub s
  || match s with
     | EmptyString => false
     | String _ s' => str_in sub s'
     end.

Definition is_empty (s : string) : bool :=
  match s with EmptyString => true | _ => false end.

Fixpoint lstrip (s : string) : string :=
  match s with
  | String c s' => if is_space c then lstrip s' else s
  | EmptyString => EmptyString
  end.

Fixpoint rstrip (s : string) : string :=
  match s with
  | String c s' =>
      let r := rstrip s' in
      if is_space c && is_empty r then EmptyString else String c r
  | EmptyString => EmptyString
  end.

(** [s.strip()] *)
Definition strip (s : string) : string := rstrip (lstrip s).

(** [s.split()]: maximal runs of characters that are not white space.
    [cur] is the run being read, in reverse. *)
Fixpoint split_go (cur : string) (s : string) : list string :=
  match s with
  | EmptyString => if is_empty cur then [] else [String.rev cur]
  | String c s' =>
      if is_space c
      then (if is_empty cur then [] else [String.rev cur]) ++ split_go EmptyString s'
      else split_go (String c cur) s'
  end.
Definition split (s : string) : list string := split_go EmptyString s.

(** [s.split(sep)] for a one-character separator: empty fields are kept. *)
Fixpoint split_on_go (sep : ascii) (cur : string) (s : string) : list string :=
  match s with
  | EmptyString => [String.rev cur]
  | String c s' =>
      if ascii_dec c sep
      then String.rev cur :: split_on_go sep EmptyString s'
      else split_on_go sep (String c cur) s'
  end.
Definition split_on (sep : ascii) (s : string) : list string :=
  split_on_go sep EmptyString s.

(** [set(l)] *)
Definition set_of (l : list string) : gset string := list_to_set l.

(** [str(n)] for an [int]. *)
Definition str_of_int (n : Z) : string := pretty n.

(** A stable sort, as [list.sort] and [sorted] are: [before y x] says
    that [y] has to come strictly before [x]; elements that are not
    ordered by it keep the order they have in the input. *)
Section Sort.
Context {A : Type} (before : A -> A -> bool).

Fixpoint insert_stable (x : A) (l : list A) : list A :=
  match l with
  | [] => [x]
  | y :: l' => if before y x then y :: insert_stable x l' else x :: l
  end.

Fixpoint sort_stable (l : list A) : list A :=
  match l with
  | [] => []
  | x :: l' => insert_stable x (sort_stable l')
  end.
End Sort.

End Py.

(** ** The [re] module, as far as the header patterns use it

    A pattern is a sequence of atoms; the quantifiers are greedy and
    backtrack, as in [re].  All patterns are compiled with
    [re.MULTILINE | re.IGNORECASE]: [^] matches at the start of the
    searched string and after a line feed, [$] at its end and before a
    line feed, and letters match in both cases. *)

Module Re.

Inductive atom : Type :=
| Bol
| Eol
| One (p : ascii -> bool)
| Star (p : ascii -> bool)
| Plus (p : ascii -> bool)
| GroupOpen
| GroupClose.

Definition pattern : Type := list atom.

Record rmatch : Type := {
  m_start : nat;
  m_end : nat;
  m_group : option (nat * nat)
}.

Definition newline : ascii := ascii_of_nat 10.

Definition at_bol (prev : option ascii) : bool :=
  match prev with
  | None => true
  | Some c => if ascii_dec c newline then true else false
  end.

Definition at_eol (s : string) : bool :=
  match s with
  | EmptyString => true
  | String c _ => if ascii_dec c newline then true else false
  end.

(** The state of a match attempt: where the group was opened, the group
    once closed, the current offset, the character before it and the
    text from it on. *)
Definition cont : Type :=
  nat -> option ascii -> string -> option (nat * option (nat * nat)).

(** Greedy repetition: take a character of the class if the rest then
    matches, else stop here. *)
Fixpoint star (p : ascii -> bool) (k : cont) (pos : nat) (prev : option ascii)
    (s : string) : option (nat * option (nat * nat)) :=
  match s with
  | String c s' =>
      if p c
      then match star p k (S pos) (Some c) s' with
           | Some r => Some r
           | None => k pos prev s
           end
      else k pos prev s
  | EmptyString => k pos prev s
  end.

Definition one (p : ascii -> bool) (k : cont) : cont :=
  fun pos prev s =>
    match s with
    | String c s' => if p c then k (S pos) (Some c) s' else None
    | EmptyString => None
    end.

Fixpoint m_atoms (pat : pattern) (gopen : nat) (g : option (nat * nat)) : cont :=
  match pat with
  | [] => fun pos _ _ => Some (pos, g)
  | Bol :: r => fun pos prev s =>
      if at_bol prev then m_atoms r gopen g pos prev s else None
  | Eol :: r => fun pos prev s =>
      if at_eol s then m_atoms r gopen g pos prev s else None
  | One p :: r => one p (m_atoms r gopen g)
  | Star p :: r => star p (m_atoms r gopen g)
  | Plus p :: r => one p (star p (m_atoms r gopen g))
  | GroupOpen :: r => fun pos prev s => m_atoms r pos g pos prev s
  | GroupClose :: r => fun pos prev s => m_atoms r gopen (Some (gopen, pos)) pos prev s
  end.

Definition match_at (pat : pattern) (pos : nat) (prev : option ascii)
    (s : string) : option rmatch :=
  match m_atoms pat pos None pos prev s with
  | Some (e, g) => Some {| m_start := pos; m_end := e; m_group := g |}
  | None => None
  end.

Fixpoint search_from (pat : pattern) (pos : nat) (prev : option ascii)
    (s : string) : option rmatch :=
  match match_at pat pos prev s with
  | Some m => Some m
  | None =>
      match s with
      | String c s' => search_from pat (S pos) (Some c) s'
      | EmptyString => None
      end
  end.

(** [re.search(pat, s, re.MULTILINE | re.IGNORECASE)]: the leftmost match. *)
Definition search (pat : pattern) (s : string) : option rmatch :=
  search_from pat 0 None s.

(** The matches from left to right, none overlapping another: after a
    match the scan resumes at its end.  [skip] counts the characters of
    the last match still to be passed. *)
Fixpoint finditer_from (pat : pattern) (skip : nat) (pos : nat)
    (prev : option ascii) (s : string) : list rmatch :=
  match skip, s with
  | S k, String c s' => finditer_from pat k (S pos) (Some c) s'
  | S _, EmptyString => []
  | 0, EmptyString => option_list (match_at pat pos prev s)
  | 0, String c s' =>
      match match_at pat pos prev s with
      | Some m => m :: finditer_from pat (m_end m - pos - 1) (S pos) (Some c) s'
      | None => finditer_from pat 0 (S pos) (Some c) s'
      end
  end.

(** [re.finditer(pat, s, re.MULTILINE | re.IGNORECASE)] *)
Definition finditer (pat : pattern) (s : string) : list rmatch :=
  finditer_from pat 0 0 None s.

(** [match.groups()] is empty when the pattern has no group. *)
Definition has_groups (pat : pattern) : bool :=
  existsb (fun a => match a with GroupOpen => true | _ => false end) pat.

(** [match.group(0)] *)
Definition group0 (s : string) (m : rmatch) : string :=
  Py.slice (m_start m) (m_end m) s.

(** [match.group(1)] *)
Definition group1 (s : string) (m : rmatch) : string :=
  match m_group m with
  | Some (a, b) => Py.slice a b s
  | None => EmptyString
  end.

(** Atoms of the header patterns. *)
Definition chr (c : ascii) : atom :=
  One (fun x => if ascii_dec x c then true else false).
Definition ichr (c : ascii) : atom :=
  One (fun x => if ascii_dec (Py.lower_char x) (Py.lower_char c) then true else false).
Definition not_chr (c : ascii) (x : ascii) : bool :=
  if ascii_dec x c then false else true.
Definition letter_or_space (x : ascii) : bool :=
  Py.is_letter x || Py.is_space x.
Fixpoint word (w : string) : pattern :=
  match w with
  | EmptyString => []
  | String c w' => ichr c :: word w'
  end.

End Re.

(** ** document_processor.py: the data handed to the segmenter *)

(** An entry of [page_contents]: a dictionary read with
    [.get('text', '')] and [.get('page_number', 1)]. *)
Record PageInfo : Type := {
  pg_page_number : option Z;
  pg_text : option string
}.

(** The fields of [ProcessedDocument] the segmenter reads. *)
Record ProcessedDocument : Type := {
  filename : string;
  text_content : string;
  page_contents : list PageInfo
}.

(** ** section_extractor.py *)

Record ExtractedSection : Type := {
  document_name : string;
  page_number : Z;
  section_title : string;
  section_text : string;
  section_type : string;
  confidence_score : Q;
  start_position : nat;
  end_position : nat
}.

Module SectionExtractor.
Import Re.

Definition numbered_heading : pattern :=
  [Bol; Plus Py.is_digit; chr "."; Plus Py.is_space;
   GroupOpen; One Py.is_letter; Star (not_chr "."); GroupClose].

Definition all_caps_line : pattern :=
  [Bol; GroupOpen; One Py.is_letter; Plus letter_or_space; GroupClose; Eol].

Definition named_heading (w : string) : pattern :=
  [Bol; GroupOpen] ++ word w ++ [GroupClose; Star Py.is_space; Eol].

Definition header_patterns : list pattern :=
  [ numbered_heading;
    all_caps_line;
    named_heading "Abstract";
    named_heading "Introduction";
    named_heading "Methodology";
    named_heading "Results";
    named_heading "Discussion";
    named_heading "Conclusion";
    named_heading "References";
    named_heading "Background";
    named_heading "Methods" ].

(** The loop of [_find_section_end] over the patterns. *)
Fixpoint first_header (pats : list pattern) (remaining_text : string)
    : option rmatch :=
  match pats with
  | [] => None
  | pat :: pats' =>
      match search pat remaining_text with
      | Some m => Some m
      | None => first_header pats' remaining_text
      end
  end.

Definition max_section_length : nat := 5000.

Definition _find_section_end (text : string) (start_pos : nat) : nat :=
  let remaining_text := Py.slice_from (start_pos + 1) text in
  match first_header header_patterns remaining_text with
  | Some m => start_pos + 1 + m_start m
  | None => Nat.min (start_pos + max_section_length) (Py.len text)
  end.

Definition page_text_of (page_info : PageInfo) : string :=
  default EmptyString (pg_text page_info).
Definition page_num_of (page_info : PageInfo) : Z :=
  default 1%Z (pg_page_number page_info).

(** The loop of [_estimate_page_number]. *)
Fixpoint walk_pages (pages : list PageInfo) (current_pos position : nat)
    : option Z :=
  match pages with
  | [] => None
  | page_info :: pages' =>
      let page_text := page_text_of page_info in
      if position <? current_pos + Py.len page_text
      then Some (page_num_of page_info)
      else walk_pages pages' (current_pos + Py.len page_text + 2) position
  end.

Definition _estimate_page_number (doc : ProcessedDocument) (position : nat) : Z :=
  match page_contents doc with
  | [] => 1%Z
  | pages =>
      match walk_pages pages 0 position with
      | Some n => n
      | None => Z.of_nat (length pages)
      end
  end.

(** [type_mapping], in the order it is written. *)
Definition type_mapping : list (string * string) :=
  [ ("abstract", "abstract");
    ("introduction", "introduction");
    ("methodology", "methods");
    ("method", "methods");
    ("results", "results");
    ("discussion", "discussion");
    ("conclusion", "conclusion");
    ("references", "references");
    ("background", "background") ].

Fixpoint classify_in (mapping : list (string * string)) (title_lower : string)
    : string :=
  match mapping with
  | [] => "content"
  | (key, ty) :: mapping' =>
      if Py.str_in key title_lower then ty else classify_in mapping' title_lower
  end.

Definition _classify_section_type (title : string) : string :=
  classify_in type_mapping (Py.lower title).

(** The body of the loop over the matches of one pattern. *)
Definition section_of_match (doc : ProcessedDocument) (pat : pattern)
    (m : rmatch) : option ExtractedSection :=
  let text := text_content doc in
  let title :=
    if has_groups pat then group1 text m else Py.strip (group0 text m) in
  let start_pos := m_start m in
  let end_pos := _find_section_end text start_pos in
  let body := Py.strip (Py.slice start_pos end_pos text) in
  if Py.len body <? 50 then None
  else Some {| document_name := filename doc;
               page_number := _estimate_page_number doc start_pos;
               section_title := title;
               section_text := body;
               section_type := _classify_section_type title;
               confidence_score := 7 # 10;
               start_position := start_pos;
               end_position := end_pos |}.

Definition _extract_from_full_text (doc : ProcessedDocument)
    : list ExtractedSection :=
  flat_map
    (fun pat =>
       omap (section_of_match doc pat) (finditer pat (text_content doc)))
    header_patterns.

(** The first line, of the first five, that is not empty and shorter
    than 100 characters once stripped. *)
Fixpoint find_title (lines : list string) : option string :=
  match lines with
  | [] => None
  | line :: lines' =>
      let line := Py.strip line in
      if (0 <? Py.len line) && (Py.len line <? 100) then Some line
      else find_title lines'
  end.

Definition section_of_page (doc : ProcessedDocument) (page_info : PageInfo)
    : option ExtractedSection :=
  let page_text := page_text_of page_info in
  let page_num := page_num_of page_info in
  if 200 <? Py.len (Py.strip page_text) then
    let lines := take 5 (Py.split_on Re.newline page_text) in
    let title :=
      match find_title lines with
      | Some t => t
      | None => "Page " +:+ Py.str_of_int page_num +:+ " Content"
      end in
    Some {| document_name := filename doc;
            page_number := page_num;
            section_title := title;
            section_text := page_text;
            section_type := "content";
            confidence_score := 1 # 2;
            start_position := 0;
            end_position := Py.len page_text |}
  else None.

Definition _extract_from_pages (doc : ProcessedDocument)
    : list ExtractedSection :=
  omap (section_of_page doc) (page_contents doc).

(** The loop of [_remove_duplicate_sections], [seen_titles] being the
    set built so far. *)
Fixpoint dedup_go (seen_titles : gset string) (sections : list ExtractedSection)
    : list ExtractedSection :=
  match sections with
  | [] => []
  | section :: sections' =>
      let title_key := Py.strip (Py.lower (section_title section)) in
      if decide (title_key ∈ seen_titles)
      then dedup_go seen_titles sections'
      else section :: dedup_go ({[ title_key ]} ∪ seen_titles) sections'
  end.

Definition _remove_duplicate_sections (sections : list ExtractedSection)
    : list ExtractedSection :=
  dedup_go ∅ sections.

(** [sorted(unique_sections, key=lambda x: x.start_position)] *)
Definition sort_by_position (sections : list ExtractedSection)
    : list ExtractedSection :=
  Py.sort_stable
    (fun y x => start_position y <? start_position x) sections.

Definition _extract_sections_from_document (doc : ProcessedDocument)
    : list ExtractedSection :=
  let full_text_sections := _extract_from_full_text doc in
  let sections :=
    if length full_text_sections <? 2
    then full_text_sections ++ _extract_from_pages doc
    else full_text_sections in
  sort_by_position (_remove_duplicate_sections sections).

(** No step of [_extract_sections_from_document] raises, so the handler
    of the loop is never entered. *)
Definition extract_sections (processed_docs : list ProcessedDocument)
    : list ExtractedSection :=
  flat_map _extract_sections_from_document processed_docs.

End SectionExtractor.

(** ** model_manager.py *)

(** A sentence encoder, seen through the only use the manager makes of
    one: encode two texts and take the cosine of the embeddings, which
    may raise. *)
Record Encoder : Type := {
  encode_cosine : string -> string -> result Q
}.

(** The state of a [ModelManager]: the model slots set by [__init__] and
    cleared by [cleanup]. *)
Record ModelManager : Type := {
  _sentence_encoder : option Encoder;
  _text_classifier : option Encoder
}.

Module ModelManager.

(** "Always return None to force fallback methods": the slot of the
    manager is not read. *)
Definition get_sentence_encoder (self : ModelManager) : option Encoder :=
  None.

Definition div_nat (a b : nat) : Q :=
  inject_Z (Z.of_nat a) / inject_Z (Z.of_nat b).

Definition _fallback_similarity_score (text1 text2 : string) : Q :=
  let text1_lower := Py.lower text1 in
  let text2_lower := Py.lower text2 in
  let words1 := Py.set_of (Py.split text1_lower) in
  let words2 := Py.set_of (Py.split text2_lower) in
  if decide (words1 = ∅ ∨ words2 = ∅) then 0
  else
    let overlap := size (words1 ∩ words2) in
    let union := size (words1 ∪ words2) in
    if 0 <? union then div_nat overlap union else 0.

Definition compute_similarity (self : ModelManager) (text1 text2 : string)
    : result Q :=
  match get_sentence_encoder self with
  | None => Ok (_fallback_similarity_score text1 text2)
  | Some encoder =>
      match encode_cosine encoder text1 text2 with
      | Ok similarity => Ok (Qmax 0 similarity)
      | Err _ => Ok (_fallback_similarity_score text1 text2)
      end
  end.

End ModelManager.

(** ** persona_analyzer.py *)

(** [analysis_context], which nothing downstream reads, is left out. *)
Record PersonaAnalysis : Type := {
  persona : string;
  job_to_be_done : string;
  expertise_areas : list string;
  key_interests : list string;
  priority_keywords : list string
}.

Module PersonaAnalyzer.

(** [expertise_keywords], a dictionary walked with [.items()]: the
    entries in the order they are written. *)
Definition expertise_keywords : list (string * list string) :=
  [ ("researcher", ["research"; "analysis"; "methodology"; "data"]);
    ("analyst", ["analysis"; "trends"; "metrics"; "performance"]);
    ("student", ["learning"; "concepts"; "fundamentals"; "exam"]);
    ("investment", ["financial"; "revenue"; "market"; "growth"]);
    ("phd", ["advanced"; "theoretical"; "methodology"; "literature"]);
    ("chemistry", ["chemical"; "reactions"; "compounds"; "mechanisms"]) ].

(** The loop of [_extract_expertise_areas]: [areas.extend(keywords)]
    for each key found in the persona. *)
Fixpoint extend_areas (table : list (string * list string))
    (persona_lower : string) (areas : list string) : list string :=
  match table with
  | [] => areas
  | (key, keywords) :: table' =>
      if Py.str_in key persona_lower
      then extend_areas table' persona_lower (areas ++ keywords)
      else extend_areas table' persona_lower areas
  end.

Definition _extract_expertise_areas (persona : string) : list string :=
  let persona_lower := Py.lower persona in
  take 5 (extend_areas expertise_keywords persona_lower []).

Definition interest_keywords : list string :=
  [ "methodology"; "dataset"; "benchmark"; "performance";
    "revenue"; "trend"; "investment"; "strategy";
    "concept"; "mechanism"; "kinetics"; "reaction";
    "review"; "analysis"; "summary"; "comparison" ].

Definition _extract_key_interests (job_to_be_done : string) : list string :=
  let job_lower := Py.lower job_to_be_done in
  take 5 (filter (fun kw => Is_true (Py.str_in kw job_lower)) interest_keywords).

Definition stop_words : gset string :=
  Py.set_of ["the"; "and"; "or"; "but"; "in"; "on"; "at"; "to"; "for"; "of";
             "with"; "by"].

Definition is_punct (c : ascii) : bool :=
  existsb (fun p => if ascii_dec c p then true else false)
    [ "."%char; ","%char; "!"%char; "?"%char; ";"%char; ":"%char ].

Fixpoint lstrip_punct (s : string) : string :=
  match s with
  | String c s' => if is_punct c then lstrip_punct s' else s
  | EmptyString => EmptyString
  end.

Fixpoint rstrip_punct (s : string) : string :=
  match s with
  | String c s' =>
      let r := rstrip_punct s' in
      if is_punct c && Py.is_empty r then EmptyString else String c r
  | EmptyString => EmptyString
  end.

(** [word.strip(".,!?;:")] *)
Definition strip_punct (s : string) : string := rstrip_punct (lstrip_punct s).

(** "Remove duplicates while preserving order" *)
Fixpoint unique_go (seen : gset string) (words : list string) : list string :=
  match words with
  | [] => []
  | word :: words' =>
      if decide (word ∈ seen) then unique_go seen words'
      else word :: unique_go ({[ word ]} ∪ seen) words'
  end.

Definition _extract_priority_keywords (persona job_to_be_done : string)
    : list string :=
  let combined_text := Py.lower (persona +:+ " " +:+ job_to_be_done) in
  let words := Py.split combined_text in
  let priority_words :=
    strip_punct <$>
      filter (fun word => 3 < Py.len word ∧ word ∉ stop_words) words in
  take 10 (unique_go ∅ priority_words).

Definition analyze_persona (persona job_to_be_done : string) : PersonaAnalysis :=
  {| persona := persona;
     job_to_be_done := job_to_be_done;
     expertise_areas := _extract_expertise_areas persona;
     key_interests := _extract_key_interests job_to_be_done;
     priority_keywords := _extract_priority_keywords persona job_to_be_done |}.

End PersonaAnalyzer.

(** ** relevance_ranker.py *)

Record RankedSection : Type := {
  section : ExtractedSection;
  relevance_score : Q;
  ranking_factors : list (string * Q);
  importance_rank : nat
}.

(** A [RelevanceRanker]: its model manager, and the function
    [fuzz.partial_ratio] of the optional package [fuzzywuzzy], [None]
    when the package cannot be imported. *)
Record RelevanceRanker : Type := {
  model_manager : ModelManager;
  fuzz_partial_ratio : option (string -> string -> result Z)
}.

Module RelevanceRanker.

Local Open Scope Q_scope.

(** [self.ranking_weights], set once by [__init__]. *)
Definition ranking_weights : gmap string Q :=
  list_to_map
    [ ("keyword_match", 0.25);
      ("semantic_similarity", 0.35);
      ("section_type_importance", 0.25);
      ("content_length", 0.05);
      ("position_bias", 0.05);
      ("title_relevance", 0.05) ].

(** [d[key]] on a dictionary kept in insertion order. *)
Fixpoint dict_get (d : list (string * Q)) (key : string) : result Q :=
  match d with
  | [] => Err KeyError
  | (k, v) :: d' => if decide (k = key) then Ok v else dict_get d' key
  end.

Definition weight_of (factor : string) : result Q :=
  match ranking_weights !! factor with
  | Some w => Ok w
  | None => Err KeyError
  end.

(** The loop of [_calculate_keyword_match_score]. *)
Fixpoint count_matches (section_title_lower section_text_lower : string)
    (all_keywords : list string) (matches : nat) : nat :=
  match all_keywords with
  | [] => matches
  | keyword :: rest =>
      let keyword_lower := Py.lower keyword in
      if Py.str_in keyword_lower section_title_lower
      then count_matches section_title_lower section_text_lower rest (matches + 2)
      else if Py.str_in keyword_lower section_text_lower
      then count_matches section_title_lower section_text_lower rest (matches + 1)
      else count_matches section_title_lower section_text_lower rest matches
  end.

Definition of_nat (n : nat) : Q := inject_Z (Z.of_nat n).

(** [a < b] on floats. *)
Definition Qlt_bool (a b : Q) : bool := negb (Qle_bool b a).

Definition _calculate_keyword_match_score (section : ExtractedSection)
    (persona_analysis : PersonaAnalysis) : Q :=
  let section_text_lower := Py.lower (section_text section) in
  let section_title_lower := Py.lower (section_title section) in
  let all_keywords :=
    expertise_areas persona_analysis ++ key_interests persona_analysis
    ++ priority_keywords persona_analysis in
  match all_keywords with
  | [] => 0
  | _ =>
      let matches :=
        count_matches section_title_lower section_text_lower all_keywords 0 in
      let total_keywords := length all_keywords in
      Qmin (of_nat matches / (of_nat total_keywords * 1.5)) 1
  end.

Definition review_scores : gmap string Q :=
  list_to_map
    [ ("abstract", 0.9); ("introduction", 0.8); ("methods", 0.7);
      ("results", 0.6); ("discussion", 0.8); ("conclusion", 0.7);
      ("references", 0.5) ].

Definition analysis_scores : gmap string Q :=
  list_to_map
    [ ("abstract", 0.7); ("introduction", 0.6); ("methods", 0.9);
      ("results", 0.9); ("discussion", 0.8); ("conclusion", 0.7);
      ("references", 0.3) ].

Definition study_scores : gmap string Q :=
  list_to_map
    [ ("abstract", 0.6); ("introduction", 0.8); ("methods", 0.7);
      ("results", 0.5); ("discussion", 0.6); ("conclusion", 0.8);
      ("references", 0.2) ].

Definition default_scores : gmap string Q :=
  list_to_map
    [ ("abstract", 0.7); ("introduction", 0.7); ("methods", 0.6);
      ("results", 0.6); ("discussion", 0.6); ("conclusion", 0.6);
      ("references", 0.3) ].

Definition type_scores_for (job_lower : string) : gmap string Q :=
  if Py.str_in "literature review" job_lower || Py.str_in "review" job_lower
  then review_scores
  else if Py.str_in "analysis" job_lower || Py.str_in "analyze" job_lower
  then analysis_scores
  else if Py.str_in "exam" job_lower || Py.str_in "study" job_lower
  then study_scores
  else default_scores.

Definition _calculate_section_type_score (section : ExtractedSection)
    (persona_analysis : PersonaAnalysis) : Q :=
  let job_lower := Py.lower (job_to_be_done persona_analysis) in
  let type_scores := type_scores_for job_lower in
  default 0.5 (type_scores !! section_type section).

Definition _calculate_content_length_score (section : ExtractedSection) : Q :=
  let text_length := Py.len (section_text section) in
  if (text_length <? 100)%nat then 0.1
  else if (text_length <? 500)%nat then 0.6
  else if (text_length <=? 3000)%nat then 1.0
  else if (text_length <=? 5000)%nat then 0.8
  else 0.6.

Definition _calculate_position_bias_score (section : ExtractedSection) : Q :=
  let page_num := page_number section in
  if (page_num <=? 2)%Z then 1.0
  else if (page_num <=? 5)%Z then 0.8
  else if (page_num <=? 10)%Z then 0.6
  else 0.4.

Definition common_words : gset string :=
  Py.set_of ["that"; "with"; "from"; "this"].

Definition _calculate_title_relevance_score (section : ExtractedSection)
    (persona_analysis : PersonaAnalysis) : Q :=
  let title_lower := Py.lower (section_title section) in
  let job_keywords := Py.split (Py.lower (job_to_be_done persona_analysis)) in
  let meaningful_keywords :=
    filter (fun word => (3 < Py.len word)%nat ∧ word ∉ common_words)
      job_keywords in
  match meaningful_keywords with
  | [] => 0.5
  | _ =>
      let matches :=
        length (filter (fun keyword => Is_true (Py.str_in keyword title_lower))
                  meaningful_keywords) in
      Qmin (of_nat matches / of_nat (length meaningful_keywords)) 1
  end.

Definition _simple_overlap_score (section : ExtractedSection)
    (persona_analysis : PersonaAnalysis) : Q :=
  let context_words :=
    Py.set_of (Py.split (Py.lower
      (persona persona_analysis +:+ " " +:+ job_to_be_done persona_analysis))) in
  let section_words :=
    Py.set_of (Py.split (Py.lower
      (section_title section +:+ " " +:+ Py.slice_to 300 (section_text section)))) in
  if decide (context_words = ∅ ∨ section_words = ∅) then 0
  else
    let overlap := size (context_words ∩ section_words) in
    let union := size (context_words ∪ section_words) in
    if (0 <? union)%nat then of_nat overlap / of_nat union else 0.

Definition _fallback_semantic_score (self : RelevanceRanker)
    (section : ExtractedSection) (persona_analysis : PersonaAnalysis) : Q :=
  match fuzz_partial_ratio self with
  | None => _simple_overlap_score section persona_analysis
  | Some partial_ratio =>
      let context :=
        persona persona_analysis +:+ " " +:+ job_to_be_done persona_analysis in
      let section_content :=
        section_title section +:+ " " +:+ Py.slice_to 300 (section_text section) in
      match partial_ratio (Py.lower context) (Py.lower section_content) with
      | Ok ratio => inject_Z ratio / 100
      | Err ImportError => _simple_overlap_score section persona_analysis
      | Err _ => 0.3
      end
  end.

Definition _calculate_semantic_similarity_score (self : RelevanceRanker)
    (section : ExtractedSection) (persona_analysis : PersonaAnalysis) : Q :=
  let context :=
    persona persona_analysis +:+ " " +:+ job_to_be_done persona_analysis in
  let section_content :=
    if (0 <? Py.len (section_text section))%nat
    then section_title section +:+ " " +:+ Py.slice_to 500 (section_text section)
    else section_title section in
  match ModelManager.compute_similarity (model_manager self) context section_content with
  | Ok similarity =>
      if Qlt_bool 0.7 similarity then Qmin (similarity * 1.2) 1
      else similarity
  | Err _ => _fallback_semantic_score self section persona_analysis
  end.

(** [sum(factors[f] * self.ranking_weights[f] for f in factors.keys())],
    [acc] being the sum so far.  The sum is the exact one: the
    interpreter rounds every product and every partial sum to a binary64
    number, and from CPython 3.12 on [sum] compensates the rounding
    errors, so the score of the code is this sum up to a few units in
    the last place, and which of two scores that are equal here is the
    greater in the code is not fixed by the source. *)
Fixpoint weighted_sum (factors : list (string * Q)) (keys : list string)
    (acc : Q) : result Q :=
  match keys with
  | [] => Ok acc
  | factor :: keys' =>
      v ← dict_get factors factor;
      w ← weight_of factor;
      weighted_sum factors keys' (acc + v * w)
  end.

Definition _calculate_relevance_score (self : RelevanceRanker)
    (section : ExtractedSection) (persona_analysis : PersonaAnalysis)
    : result (Q * list (string * Q)) :=
  let factors :=
    [ ("keyword_match", _calculate_keyword_match_score section persona_analysis);
      ("semantic_similarity",
        _calculate_semantic_similarity_score self section persona_analysis);
      ("section_type_importance",
        _calculate_section_type_score section persona_analysis);
      ("content_length", _calculate_content_length_score section);
      ("position_bias", _calculate_position_bias_score section);
      ("title_relevance",
        _calculate_title_relevance_score section persona_analysis) ] in
  total_score ← weighted_sum factors (factors.*1) 0;
  Ok (total_score, factors).

(** The first loop of [rank_sections]: a section whose scoring raises is
    skipped. *)
Fixpoint score_all (self : RelevanceRanker) (sections : list ExtractedSection)
    (persona_analysis : PersonaAnalysis) : list RankedSection :=
  match sections with
  | [] => []
  | section :: sections' =>
      match _calculate_relevance_score self section persona_analysis with
      | Ok (relevance_score, factors) =>
          {| section := section;
             relevance_score := relevance_score;
             ranking_factors := factors;
             importance_rank := 0 |}
          :: score_all self sections' persona_analysis
      | Err _ => score_all self sections' persona_analysis
      end
  end.

(** [ranked_sections.sort(key=lambda x: x.relevance_score, reverse=True)] *)
Definition sort_by_score (ranked_sections : list RankedSection)
    : list RankedSection :=
  Py.sort_stable
    (fun y x => Qlt_bool (relevance_score x) (relevance_score y))
    ranked_sections.

Definition set_rank (i : nat) (r : RankedSection) : RankedSection :=
  {| section := section r;
     relevance_score := relevance_score r;
     ranking_factors := ranking_factors r;
     importance_rank := i |}.

(** [for i, ranked_section in enumerate(ranked_sections, 1)] *)
Fixpoint assign_ranks (i : nat) (ranked_sections : list RankedSection)
    : list RankedSection :=
  match ranked_sections with
  | [] => []
  | r :: rest => set_rank i r :: assign_ranks (S i) rest
  end.

(** What [rank_sections] does with the segments it has scored: the
    sort, the ranks, and the message logged before returning, which
    reads [ranked_sections[0]]. *)
Definition rank_scored (ranked_sections : list RankedSection)
    : result (list RankedSection) :=
  let ranked_sections := assign_ranks 1 (sort_by_score ranked_sections) in
  match ranked_sections with
  | [] => Err IndexError
  | _ :: _ => Ok ranked_sections
  end.

Definition rank_sections (self : RelevanceRanker)
    (sections : list ExtractedSection) (persona_analysis : PersonaAnalysis)
    : result (list RankedSection) :=
  rank_scored (score_all self sections persona_analysis).

End RelevanceRanker.

(** ** main.py: the core of [DocumentAnalyst.analyze]

    Steps 2 to 4 of the pipeline, on documents already processed; an
    exception of a step is logged and raised again. *)

Module DocumentAnalyst.

Definition analyze (self : RelevanceRanker)
    (processed_docs : list ProcessedDocument) (persona job_to_be_done : string)
    : result (list RankedSection) :=
  let persona_analysis := PersonaAnalyzer.analyze_persona persona job_to_be_done in
  let extracted_sections := SectionExtractor.extract_sections processed_docs in
  RelevanceRanker.rank_sections self extracted_sections persona_analysis.

End DocumentAnalyst.

(** ** Notions the specification uses, for comparison with the code *)

Module Spec.
Import Re SectionExtractor.

(** The headers the structural pass detects in a document: every match
    of every header pattern in its full text. *)
Definition detected_headers (doc : ProcessedDocument) : list rmatch :=
  flat_map (fun pat => finditer pat (text_content doc)) header_patterns.

(** The offsets at which a header is detected. *)
Definition header_offsets (doc : ProcessedDocument) : gset nat :=
  list_to_set (m_start <$> detected_headers doc).

(** The start of the nearest header in [remaining_text]: the least
    start of a first match, over all patterns. *)
Fixpoint nearest_header (pats : list pattern) (remaining_text : string)
    : option nat :=
  match pats with
  | [] => None
  | pat :: pats' =>
      match search pat remaining_text, nearest_header pats' remaining_text with
      | Some m, Some n => Some (Nat.min (m_start m) n)
      | Some m, None => Some (m_start m)
      | None, r => r
      end
  end.

(** The section end as the specification words it: the nearest next
    header after the current match, else [start + 5000] or the end of
    the text. *)
Definition section_end (text : string) (start_pos : nat) : nat :=
  match nearest_header header_patterns (Py.slice_from (start_pos + 1) text) with
  | Some n => start_pos + 1 + n
  | None => Nat.min (start_pos + 5000) (Py.len text)
  end.


(** What one term adds to the keyword count of a segment. *)
Definition contribution (title body term : string) : nat :=
  if Py.str_in (Py.lower term) (Py.lower title) then 2
  else if Py.str_in (Py.lower term) (Py.lower body) then 1
  else 0.

(** The keyword factor over a given sequence of terms. *)
Definition keyword_match_over (terms : list string) (title body : string) : Q :=
  match terms with
  | [] => 0
  | _ =>
      Qmin (RelevanceRanker.of_nat (sum_list (contribution title body <$> terms))
            / (RelevanceRanker.of_nat (length terms) * 1.5)) 1
  end.

(** The keyword factor as the specification words it: over the union of
    the three term collections, each term taken once. *)
Definition keyword_match_union (section : ExtractedSection)
    (persona_analysis : PersonaAnalysis) : Q :=
  keyword_match_over
    (remove_dups (expertise_areas persona_analysis
                  ++ key_interests persona_analysis
                  ++ priority_keywords persona_analysis))
    (section_title section) (section_text section).

(** The role keywords of the table found in a folded persona, with
    their term lists. *)
Definition matching_roles (persona_lower : string)
    : list (string * list string) :=
  filter (fun entry => Is_true (Py.str_in entry.1 persona_lower))
    PersonaAnalyzer.expertise_keywords.


(** Whether a text holds a white-space character. *)
Fixpoint has_space (s : string) : bool :=
  match s with
  | EmptyString => false
  | String c s' => Py.is_space c || has_space s'
  end.
(** A word: not empty and free of white space. *)
Definition is_word (w : string) : bool :=
  negb (Py.is_empty w) && negb (has_space w).

(** The elements of a list with their positions, counted from [i]. *)
Fixpoint tag_from {A : Type} (i : nat) (l : list A) : list (nat * A) :=
  match l with
  | [] => []
  | x :: l' => (i, x) :: tag_from (S i) l'
  end.

(** The order a ranking has to follow, on elements tagged with their
    input position: a higher score first, and among equal scores the
    earlier input first. *)
Definition precedes {A : Type} (key : A -> Q) (p q : nat * A) : Prop :=
  (key q.2 < key p.2)%Q \/ ((key p.2 == key q.2)%Q /\ p.1 < q.1).

(** The comparison of [sort_by_score], on tagged elements. *)
Definition tagged_before {A : Type} (key : A -> Q) (p q : nat * A) : bool :=
  RelevanceRanker.Qlt_bool (key q.2) (key p.2).

End Spec.

(** ** Sample inputs *)

Module Examples.

Definition nl : string := String Re.newline EmptyString.

Definition one_page (name text : string) : ProcessedDocument :=
  {| filename := name;
     text_content := text;
     page_contents := [ {| pg_page_number := Some 1%Z; pg_text := Some text |} ] |}.

(** Two numbered headings, each followed by a paragraph. *)
Definition report_text : string :=
  "1. Overview" +:+ nl
  +:+ "This report describes the travel options for a group of ten people." +:+ nl
  +:+ "2. Costs" +:+ nl
  +:+ "The costs of every option are listed with the prices of last year." +:+ nl
  +:+ "3. End".
Definition report : ProcessedDocument := one_page "report.pdf" report_text.

(** Two named headings and no numbered one. *)
Definition paper_text : string :=
  "Abstract" +:+ nl
  +:+ "The quick, brown fox; the quick, brown fox; the quick, brown fox; "
  +:+ "the quick, brown fox; the quick, brown fox; the quick, brown fox; "
  +:+ "the quick, brown fox; the quick, brown fox; the quick, brown fox; "
  +:+ "the quick, brown fox." +:+ nl
  +:+ "Conclusion" +:+ nl
  +:+ "More text, with a comma.".
Definition paper : ProcessedDocument := one_page "paper.pdf" paper_text.

(** A numbered heading, then a line in capitals, then a numbered heading. *)
Definition memo_text : string :=
  "1. Intro." +:+ nl +:+ "SUMMARY" +:+ nl +:+ "body text." +:+ nl +:+ "2. Methods".

Definition guide_section (body : string) : ExtractedSection :=
  {| document_name := "guide.pdf";
     page_number := 1;
     section_title := "Travel Guide";
     section_text := body;
     section_type := "content";
     confidence_score := 7 # 10;
     start_position := 0;
     end_position := Py.len body |}.

Definition traveller (terms : list string) : PersonaAnalysis :=
  {| persona := "Travel planner";
     job_to_be_done := "Plan a trip";
     expertise_areas := [];
     key_interests := [];
     priority_keywords := terms |}.

Definition investor : PersonaAnalysis :=
  PersonaAnalyzer.analyze_persona "Investment analyst"
    "Analyze the revenue trend".

Definition revenue_section : ExtractedSection :=
  {| document_name := "annual.pdf";
     page_number := 3;
     section_title := "Revenue";
     section_text := "Revenue grew over the last three years in every market of the group.";
     section_type := "content";
     confidence_score := 7 # 10;
     start_position := 0;
     end_position := 68 |}.

(** A document whose only page holds no text. *)
Definition blank : ProcessedDocument := one_page "blank.pdf" "".

Definition offline_manager : ModelManager :=
  {| _sentence_encoder := None; _text_classifier := None |}.

Definition ranker : RelevanceRanker :=
  {| model_manager := offline_manager; fuzz_partial_ratio := None |}.

End Examples.

(** ** More of Python's strings *)

Module PyStr.

(** [sep.join(l)] *)
Fixpoint join (sep : string) (l : list string) : string :=
  match l with
  | [] => EmptyString
  | [x] => x
  | x :: l' => x +:+ sep +:+ join sep l'
  end.

(** [c in s] for a character [c]. *)
Fixpoint char_in (c : ascii) (s : string) : bool :=
  match s with
  | EmptyString => false
  | String x s' => (if ascii_dec c x then true else false) || char_in c s'
  end.

(** The loop of [rfind]: [pos] is the offset of [s] in the whole text and
    [found] the last offset seen so far. *)
Fixpoint rfind_go (c : ascii) (s : string) (pos : nat) (found : Z) : Z :=
  match s with
  | EmptyString => found
  | String x s' =>
      rfind_go c s' (S pos) (if ascii_dec x c then Z.of_nat pos else found)
  end.

(** [s.rfind(c)] for a character [c]: its last offset, or -1. *)
Definition rfind (c : ascii) (s : string) : Z := rfind_go c s 0 (-1)%Z.

(** [l[-1]] on a list that is not empty. *)
Definition last_of (l : list string) : result string :=
  match last l with
  | Some x => Ok x
  | None => Err IndexError
  end.

End PyStr.

(** ** document_processor.py: assembling a document

    A PDF is seen through what [page.extract_text()] gives for each of
    its pages, in order: a text, [None], or an exception. *)

Module DocumentProcessor.

Definition page_break : string :=
  String Re.newline (String Re.newline EmptyString).

(** The loop of [_extract_with_pypdf2]: [page_num] is the number
    [enumerate] gives to the next page; a page that raises is skipped. *)
Fixpoint extract_pages (pdf_pages : list (result (option string)))
    (page_num : Z) (full_text : string) (page_contents : list PageInfo)
    : string * list PageInfo :=
  match pdf_pages with
  | [] => (full_text, page_contents)
  | Ok extracted :: rest =>
      let page_text := default EmptyString extracted in
      extract_pages rest (page_num + 1)%Z
        (full_text +:+ page_text +:+ page_break)
        (page_contents ++ [ {| pg_page_number := Some page_num;
                               pg_text := Some page_text |} ])
  | Err _ :: rest => extract_pages rest (page_num + 1)%Z full_text page_contents
  end.

Definition _extract_with_pypdf2 (pdf_pages : list (result (option string)))
    : string * list PageInfo :=
  let '(full_text, page_contents) := extract_pages pdf_pages 1%Z EmptyString [] in
  (Py.strip full_text, page_contents).

(** [_process_single_document], for a file name and the pages read from
    the file. *)
Definition _process_single_document (name : string)
    (pdf_pages : list (result (option string))) : ProcessedDocument :=
  let '(text_content, page_contents) := _extract_with_pypdf2 pdf_pages in
  {| filename := name;
     text_content := text_content;
     page_contents := page_contents |}.

End DocumentProcessor.

(** ** model_manager.py: the relevance classifier *)

(** A text classification pipeline: for a text, a list of results, each a
    list of labels with their scores; it may raise. *)
Record Classifier : Type := {
  classify : string -> result (list (list (string * Q)))
}.

Module TextRelevance.

(** "Always return None to force fallback methods" *)
Definition get_text_classifier (self : ModelManager) : option Classifier :=
  None.

Definition _fallback_relevance_score (text context : string) : Q :=
  let text_lower := Py.lower text in
  let context_lower := Py.lower context in
  let text_words := Py.set_of (Py.split text_lower) in
  let context_words := Py.set_of (Py.split context_lower) in
  if decide (text_words = ∅ ∨ context_words = ∅) then 0%Q
  else
    let overlap := size (text_words ∩ context_words) in
    let union := size (text_words ∪ context_words) in
    if 0 <? union then ModelManager.div_nat overlap union else 0%Q.

Definition upper_char (c : ascii) : ascii :=
  let n := Py.code c in
  if (97 <=? n) && (n <=? 122) then ascii_of_nat (n - 32) else c.

(** [s.upper()], on ASCII labels. *)
Fixpoint upper (s : string) : string :=
  match s with
  | EmptyString => EmptyString
  | String c s' => String (upper_char c) (upper s')
  end.

(** The loop over [results[0]]: the score of the first label that
    holds POSITIVE. *)
Fixpoint positive_score (scores : list (string * Q)) : option Q :=
  match scores with
  | [] => None
  | (label, score) :: rest =>
      if Py.str_in "POSITIVE" (upper label) then Some score
      else positive_score rest
  end.

Definition classify_text_relevance (self : ModelManager) (text context : string)
    : Q :=
  match get_text_classifier self with
  | None => _fallback_relevance_score text context
  | Some classifier =>
      let combined_text := context +:+ " [SEP] " +:+ text in
      let combined_text :=
        if 512 <? Py.len combined_text then Py.slice_to 512 combined_text
        else combined_text in
      match classify classifier combined_text with
      | Ok (scores :: _) => default (1 # 2) (positive_score scores)
      | Ok [] => 1 # 2
      | Err _ => _fallback_relevance_score text context
      end
  end.

End TextRelevance.

(** ** persona_analyzer.py: the enhanced extraction of expertise areas *)

Module PersonaEnhanced.

Definition expertise_pool : list string :=
  [ "research"; "analysis"; "methodology"; "data science"; "machine learning";
    "financial analysis"; "investment"; "market research"; "statistics";
    "academic research"; "literature review"; "theoretical analysis";
    "computational biology"; "bioinformatics"; "chemistry"; "biochemistry" ].

(** The loop over the pool; an exception of the similarity leaves it. *)
Fixpoint enhance_areas (model_manager : ModelManager) (persona : string)
    (pool : list string) (enhanced_areas : list string) : result (list string) :=
  match pool with
  | [] => Ok enhanced_areas
  | term :: pool' =>
      if decide (term ∈ enhanced_areas)
      then enhance_areas model_manager persona pool' enhanced_areas
      else
        similarity ← ModelManager.compute_similarity model_manager persona term;
        if RelevanceRanker.Qlt_bool 0.4 similarity
        then enhance_areas model_manager persona pool' (enhanced_areas ++ [term])
        else enhance_areas model_manager persona pool' enhanced_areas
  end.

Definition _extract_expertise_areas_enhanced (model_manager : ModelManager)
    (persona : string) : list string :=
  let basic_areas := PersonaAnalyzer._extract_expertise_areas persona in
  match enhance_areas model_manager persona expertise_pool basic_areas with
  | Ok enhanced_areas => take 7 enhanced_areas
  | Err _ => basic_areas
  end.

End PersonaEnhanced.

(** ** output_formatter.py *)

(** An entry of "extracted_sections". *)
Record ExtractedEntry : Type := {
  ee_document : string;
  ee_section_title : string;
  ee_importance_rank : nat;
  ee_page_number : Z
}.

(** An entry of "subsection_analysis". *)
Record SubsectionEntry : Type := {
  se_document : string;
  se_refined_text : string;
  se_page_number : Z
}.

Module OutputFormatter.

Definition backslash : ascii := ascii_of_nat 92.
Definition slash : ascii := ascii_of_nat 47.

(** The loop body of [_generate_metadata]: the file name of a path. *)
Definition doc_name (doc : string) : result string :=
  if PyStr.char_in backslash doc then PyStr.last_of (Py.split_on backslash doc)
  else if PyStr.char_in slash doc then PyStr.last_of (Py.split_on slash doc)
  else Ok doc.

Definition _generate_extracted_sections (ranked_sections : list RankedSection)
    : list ExtractedEntry :=
  let top_sections := take 5 ranked_sections in
  (fun ranked_section =>
     let section := section ranked_section in
     {| ee_document := document_name section;
        ee_section_title := section_title section;
        ee_importance_rank := importance_rank ranked_section;
        ee_page_number := page_number section |}) <$> top_sections.

Definition sentence_end : string := ".!?".

(** The loop of [_generate_refined_text] over the characters. *)
Fixpoint split_sentences (text : string) (current_sentence : string)
    (sentences : list string) : list string * string :=
  match text with
  | EmptyString => (sentences, current_sentence)
  | String char text' =>
      let current_sentence := current_sentence +:+ String char EmptyString in
      if PyStr.char_in char sentence_end
         && (20 <? Py.len (Py.strip current_sentence))
      then split_sentences text' EmptyString
             (sentences ++ [Py.strip current_sentence])
      else split_sentences text' current_sentence sentences
  end.

(** The loop that builds the refined text, left at the first sentence
    that does not fit. *)
Fixpoint build_refined (sentences : list string) (refined_text : string)
    (max_length : nat) : string :=
  match sentences with
  | [] => refined_text
  | sentence :: rest =>
      if Py.len refined_text + Py.len sentence + 1 <=? max_length
      then build_refined rest (refined_text +:+ sentence +:+ " ") max_length
      else refined_text
  end.

Definition _generate_refined_text (original_text : string) (max_length : nat)
    : string :=
  if Py.len original_text <=? max_length then Py.strip original_text
  else
    let '(sentences, current_sentence) :=
      split_sentences original_text EmptyString [] in
    let sentences :=
      if Py.is_empty (Py.strip current_sentence) then sentences
      else sentences ++ [Py.strip current_sentence] in
    Py.strip (build_refined sentences EmptyString max_length).

Definition _generate_subsection_analysis (top_ranked_sections : list RankedSection)
    : list SubsectionEntry :=
  let top_sections := take 5 top_ranked_sections in
  (fun ranked_section =>
     let section := section ranked_section in
     {| se_document := document_name section;
        se_refined_text := _generate_refined_text (section_text section) 1000;
        se_page_number := page_number section |}) <$> top_sections.

Definition _clean_content (text : string) : string :=
  if Py.is_empty text then EmptyString
  else
    let text := PyStr.join " " (Py.split text) in
    let max_length := 1500 in
    let text :=
      if max_length <? Py.len text then
        let truncated := Py.slice_to max_length text in
        let last_period := PyStr.rfind "." truncated in
        if (1200 <? last_period)%Z
        then Py.slice_to (Z.to_nat (last_period + 1)) truncated
        else truncated +:+ "..."
      else text in
    Py.strip text.

End OutputFormatter.

(** ** Notions used by the further properties *)

Module Notions.

(** The key under which [_remove_duplicate_sections] compares sections. *)
Definition title_key (section : ExtractedSection) : string :=
  Py.strip (Py.lower (section_title section)).

(** The section types [_classify_section_type] can give. *)
Definition section_types : list string :=
  [ "abstract"; "introduction"; "methods"; "results"; "discussion";
    "conclusion"; "references"; "background"; "content" ].

(** The offset at which the text of a page starts in the text assembled
    from the pages before it, each followed by two line feeds. *)
Definition span_start (before : list PageInfo) : nat :=
  sum_list ((fun page_info => Py.len (SectionExtractor.page_text_of page_info) + 2)
              <$> before).


(** What a successful match attempt of a pattern does to the offsets: the
    atoms are passed in order, a character atom moves the offset by one, a
    repetition by some number of characters, and the group atoms record
    the offset.  [final] is the end of the match with its group. *)
Fixpoint run (pat : Re.pattern) (gopen : nat) (g : option (nat * nat))
    (pos : nat) (final : nat * option (nat * nat)) : Prop :=
  match pat with
  | [] => final = (pos, g)
  | Re.Bol :: r | Re.Eol :: r => run r gopen g pos final
  | Re.One _ :: r => run r gopen g (S pos) final
  | Re.Star _ :: r => exists n, run r gopen g (pos + n) final
  | Re.Plus _ :: r => exists n, run r gopen g (S pos + n) final
  | Re.GroupOpen :: r => run r pos g pos final
  | Re.GroupClose :: r => run r gopen (Some (gopen, pos)) pos final
  end.


(** Whether a text holds one of the characters that end a sentence. *)
Fixpoint has_sentence_end (s : string) : bool :=
  match s with
  | EmptyString => false
  | String c s' =>
      PyStr.char_in c OutputFormatter.sentence_end || has_sentence_end s'
  end.


(** The text assembled from pages: the text of each page followed by two
    line feeds. *)
Fixpoint assembled (pages : list PageInfo) : string :=
  match pages with
  | [] => EmptyString
  | page_info :: pages' =>
      SectionExtractor.page_text_of page_info +:+ DocumentProcessor.page_break
      +:+ assembled pages'
  end.

(** Whether reading a page gave a text, possibly none, and no exception. *)
Definition read_ok (page : result (option string)) : bool :=
  match page with
  | Ok _ => true
  | Err _ => false
  end.


(** Whether every character of a text is of a class. *)
Fixpoint all_chars (p : ascii -> bool) (s : string) : bool :=
  match s with
  | EmptyString => true
  | String c s' => p c && all_chars p s'
  end.

(** The character before the offset reached by reading [consumed] after
    the character [prev]. *)
Fixpoint last_char (prev : option ascii) (consumed : string) : option ascii :=
  match consumed with
  | EmptyString => prev
  | String c consumed' => last_char (Some c) consumed'
  end.

(** A pattern matches the text [consumed], read after the character
    [prev] and followed by [rest]: what the pattern means, without the
    order in which a matcher tries the repetitions. *)
Fixpoint matches (pat : Re.pattern) (prev : option ascii)
    (consumed rest : string) : Prop :=
  match pat with
  | [] => consumed = EmptyString
  | Re.Bol :: r => Re.at_bol prev = true /\ matches r prev consumed rest
  | Re.Eol :: r =>
      Re.at_eol (consumed +:+ rest) = true /\ matches r prev consumed rest
  | Re.One p :: r =>
      exists c consumed',
        consumed = String c consumed' /\ p c = true
        /\ matches r (Some c) consumed' rest
  | Re.Star p :: r =>
      exists run consumed',
        consumed = run +:+ consumed' /\ all_chars p run = true
        /\ matches r (last_char prev run) consumed' rest
  | Re.Plus p :: r =>
      exists c run consumed',
        consumed = String c (run +:+ consumed') /\ p c = true
        /\ all_chars p run = true
        /\ matches r (last_char (Some c) run) consumed' rest
  | Re.GroupOpen :: r | Re.GroupClose :: r => matches r prev consumed rest
  end.

(** The section names of the named heading patterns. *)
Definition heading_names : list string :=
  [ "Abstract"; "Introduction"; "Methodology"; "Results"; "Discussion";
    "Conclusion"; "References"; "Background"; "Methods" ].

End Notions.

(** ** Further sample inputs *)

Module Samples.

Definition two_pages : list PageInfo :=
  [ {| pg_page_number := Some 1%Z; pg_text := Some "First page." |};
    {| pg_page_number := Some 2%Z; pg_text := Some "Second page." |} ].

Definition two_page_document : ProcessedDocument :=
  {| filename := "two.pdf";
     text_content := "First page." +:+ DocumentProcessor.page_break +:+ "Second page.";
     page_contents := two_pages |}.


(** A text of more than 1000 characters in which no sentence ends. *)
Definition unbroken : string :=
  PyStr.join " " (replicate 30 "no sentence ends in this long text").

End Samples.

(** * Properties *)

(** ** Strings *)

Section StringFacts.

Lemma len_lstrip (s : string) : Py.len (Py.lstrip s) ≤ Py.len s.
Proof.
  induction s as [|c s IH]; simpl; [lia|].
  destruct (Py.is_space c); unfold Py.len in *; simpl; lia.
Qed.

Lemma len_rstrip (s : string) : Py.len (Py.rstrip s) ≤ Py.len s.
Proof.
  induction s as [|c s IH]; simpl; [lia|].
  destruct (Py.is_space c && Py.is_empty (Py.rstrip s));
    unfold Py.len in *; simpl; lia.
Qed.

Lemma len_strip (s : string) : Py.len (Py.strip s) ≤ Py.len s.
Proof.
  unfold Py.strip. etrans; [apply len_rstrip | apply len_lstrip].
Qed.

End StringFacts.

(** ** Tokens *)

Section TokenFacts.

Lemma app_nil_r_str (s : string) : s +:+ "" = s.
Proof.
  induction s as [|c s IH]; [done|]. unfold String.app in *. simpl. by rewrite IH.
Qed.

Lemma app_assoc_str (a b c : string) : (a +:+ b) +:+ c = a +:+ (b +:+ c).
Proof.
  induction a as [|x a IH]; [done|]. unfold String.app in *. simpl. by rewrite IH.
Qed.

Lemma rev_app_app (s t : string) : String.rev_app s t = String.rev s +:+ t.
Proof.
  revert t. induction s as [|c s IH]; intros t; [done|].
  unfold String.rev. simpl. rewrite (IH (String c "")), IH.
  by rewrite app_assoc_str.
Qed.

Lemma rev_cons (c : ascii) (s : string) :
  String.rev (String c s) = String.rev s +:+ String c "".
Proof. unfold String.rev at 1. simpl. apply rev_app_app. Qed.

Lemma has_space_app (a b : string) :
  Spec.has_space (a +:+ b) = Spec.has_space a || Spec.has_space b.
Proof.
  induction a as [|x a IH]; [done|]. unfold String.app in *. simpl.
  by rewrite IH, orb_assoc.
Qed.

Lemma is_empty_app (a b : string) :
  Py.is_empty (a +:+ b) = Py.is_empty a && Py.is_empty b.
Proof. by destruct a. Qed.

Lemma has_space_rev (s : string) :
  Spec.has_space (String.rev s) = Spec.has_space s.
Proof.
  induction s as [|c s IH]; [done|].
  rewrite rev_cons, has_space_app, IH. simpl.
  rewrite orb_false_r. apply orb_comm.
Qed.

Lemma is_empty_rev (s : string) : Py.is_empty (String.rev s) = Py.is_empty s.
Proof.
  destruct s as [|c s]; [done|]. rewrite rev_cons, is_empty_app. simpl.
  apply andb_false_r.
Qed.

(** A token of [split] is not empty and holds no white space. *)
Lemma split_go_words (cur s : string) :
  Spec.has_space cur = false →
  Forall (fun w => Spec.is_word w = true) (Py.split_go cur s).
Proof.
  revert cur. induction s as [|c s IH]; intros cur Hcur; simpl.
  - destruct (Py.is_empty cur) eqn:Hempty; repeat constructor.
    unfold Spec.is_word. by rewrite is_empty_rev, has_space_rev, Hempty, Hcur.
  - destruct (Py.is_space c) eqn:Hc.
    + apply Forall_app. split; [|by apply IH].
      destruct (Py.is_empty cur) eqn:Hempty; repeat constructor.
      unfold Spec.is_word. by rewrite is_empty_rev, has_space_rev, Hempty, Hcur.
    + apply IH. simpl. by rewrite Hc.
Qed.

Lemma split_words (s w : string) : w ∈ Py.split s → Spec.is_word w = true.
Proof.
  intros Hw. pose proof (split_go_words "" s eq_refl) as Hall.
  rewrite Forall_forall in Hall. by apply Hall.
Qed.

(** A text without white space is its own single token. *)
Lemma split_go_word (cur w : string) :
  Spec.has_space w = false →
  Py.split_go cur w
  = if Py.is_empty cur && Py.is_empty w then [] else [String.rev cur +:+ w].
Proof.
  revert cur. induction w as [|c w IH]; intros cur Hw; simpl.
  - rewrite andb_true_r, app_nil_r_str. done.
  - simpl in Hw. apply orb_false_elim in Hw as [Hc Hw].
    rewrite Hc, IH by done. simpl.
    by rewrite andb_false_r, rev_cons, app_assoc_str.
Qed.

Lemma split_word (w : string) : Spec.is_word w = true → Py.split w = [w].
Proof.
  unfold Spec.is_word. intros [Hne Hsp]%andb_true_iff.
  apply negb_true_iff in Hne, Hsp.
  unfold Py.split. rewrite split_go_word by done. simpl. by rewrite Hne.
Qed.

(** White space separates: the tokens of a text are those before a
    white-space character followed by those after it. *)
Lemma split_go_space (cur a b : string) (c : ascii) :
  Py.is_space c = true →
  Py.split_go cur (a +:+ String c b) = Py.split_go cur a ++ Py.split b.
Proof.
  intros Hc. revert cur. induction a as [|x a IH]; intros cur.
  - unfold String.app. simpl. by rewrite Hc.
  - unfold String.app in *. simpl. destruct (Py.is_space x).
    + by rewrite IH, app_assoc.
    + apply IH.
Qed.

Lemma split_space (a b : string) (c : ascii) :
  Py.is_space c = true →
  Py.split (a +:+ String c b) = Py.split a ++ Py.split b.
Proof. apply split_go_space. Qed.

Lemma lower_char_idem (c : ascii) :
  Py.lower_char (Py.lower_char c) = Py.lower_char c.
Proof. by destruct c as [[] [] [] [] [] [] [] []]. Qed.

(** Case folding keeps the length and folds nothing twice. *)
Lemma lower_lower (s : string) : Py.lower (Py.lower s) = Py.lower s.
Proof.
  induction s as [|c s IH]; [done|]. simpl. by rewrite lower_char_idem, IH.
Qed.

Lemma len_lower (s : string) : Py.len (Py.lower s) = Py.len s.
Proof.
  induction s as [|c s IH]; [done|]. unfold Py.len in *. simpl. by rewrite IH.
Qed.

End TokenFacts.

(** ** The stable sort *)

Section SortFacts.
Context {A : Type} (before : A → A → bool).

Lemma insert_stable_perm (x : A) (l : list A) :
  Py.insert_stable before x l ≡ₚ x :: l.
Proof.
  induction l as [|y l IH]; simpl; [done|].
  destruct (before y x); [|done].
  rewrite IH. apply Permutation_swap.
Qed.

Lemma sort_stable_perm (l : list A) : Py.sort_stable before l ≡ₚ l.
Proof.
  induction l as [|x l IH]; simpl; [done|].
  by rewrite insert_stable_perm, IH.
Qed.

Lemma sort_stable_length (l : list A) :
  length (Py.sort_stable before l) = length l.
Proof. by rewrite sort_stable_perm. Qed.

Lemma elem_of_sort_stable (x : A) (l : list A) :
  x ∈ Py.sort_stable before l ↔ x ∈ l.
Proof. by rewrite sort_stable_perm. Qed.

End SortFacts.

(** Sorting commutes with a map that respects the order. *)
Lemma insert_stable_fmap {A B : Type} (f : A → B)
    (beforeA : A → A → bool) (beforeB : B → B → bool) (x : A) (l : list A) :
  (∀ a b, beforeA a b = beforeB (f a) (f b)) →
  f <$> Py.insert_stable beforeA x l = Py.insert_stable beforeB (f x) (f <$> l).
Proof.
  intros Hf. induction l as [|y l IH]; csimpl; [done|].
  rewrite <- Hf. destruct (beforeA y x); csimpl; [by rewrite IH | done].
Qed.

Lemma sort_stable_fmap {A B : Type} (f : A → B)
    (beforeA : A → A → bool) (beforeB : B → B → bool) (l : list A) :
  (∀ a b, beforeA a b = beforeB (f a) (f b)) →
  f <$> Py.sort_stable beforeA l = Py.sort_stable beforeB (f <$> l).
Proof.
  intros Hf. induction l as [|x l IH]; csimpl; [done|].
  by rewrite <- IH, (insert_stable_fmap f beforeA beforeB).
Qed.

(** ** The segmenter *)

Section SegmenterFacts.
Import SectionExtractor.

Lemma section_of_match_body doc pat m s :
  section_of_match doc pat m = Some s → 50 ≤ Py.len (section_text s).
Proof.
  unfold section_of_match.
  destruct (Py.len _ <? 50) eqn:Hlen; [done|].
  intros [= <-]; simpl. by apply Nat.ltb_ge.
Qed.

Lemma section_of_match_confidence doc pat m s :
  section_of_match doc pat m = Some s → confidence_score s = 7 # 10.
Proof.
  unfold section_of_match. destruct (Py.len _ <? 50); [done|].
  by intros [= <-].
Qed.

Lemma section_of_page_body doc page_info s :
  section_of_page doc page_info = Some s → 200 < Py.len (section_text s).
Proof.
  unfold section_of_page.
  destruct (200 <? Py.len _) eqn:Hlen; [|done].
  intros [= <-]; simpl. apply Nat.ltb_lt in Hlen.
  pose proof (len_strip (page_text_of page_info)). lia.
Qed.

Lemma elem_of_extract_from_full_text doc s :
  s ∈ _extract_from_full_text doc ↔
  ∃ pat m, pat ∈ header_patterns ∧ m ∈ Re.finditer pat (text_content doc)
           ∧ section_of_match doc pat m = Some s.
Proof.
  unfold _extract_from_full_text.
  rewrite list_elem_of_In, in_flat_map. split.
  - intros (pat & Hpat & Hs). apply list_elem_of_In, list_elem_of_omap in Hs.
    destruct Hs as (m & Hm & Hs). exists pat, m.
    by rewrite list_elem_of_In.
  - intros (pat & m & Hpat & Hm & Hs). exists pat. split.
    + by apply list_elem_of_In.
    + apply list_elem_of_In, list_elem_of_omap. eauto.
Qed.

Lemma elem_of_extract_from_pages doc s :
  s ∈ _extract_from_pages doc ↔
  ∃ page_info, page_info ∈ page_contents doc
               ∧ section_of_page doc page_info = Some s.
Proof. apply list_elem_of_omap. Qed.

Lemma elem_of_dedup_go seen sections s :
  s ∈ dedup_go seen sections → s ∈ sections.
Proof.
  revert seen. induction sections as [|x l IH]; intros seen; simpl; [done|].
  case_decide.
  - intros ?%IH. by right.
  - intros [->|?%IH]%elem_of_cons; [left | by right].
Qed.

(** What [_find_section_end] returns: the first match of the first
    pattern, in the order of [header_patterns], that matches somewhere in
    the rest of the text; the capped end only when no pattern matches. *)
Lemma first_header_none pats remaining_text :
  first_header pats remaining_text = None
  ↔ Forall (fun pat => Re.search pat remaining_text = None) pats.
Proof.
  induction pats as [|pat pats IH]; simpl.
  - split; [constructor | done].
  - rewrite Forall_cons. destruct (Re.search pat remaining_text); [|tauto].
    split; [done | by intros [? _]].
Qed.

Lemma first_header_some pats remaining_text m :
  first_header pats remaining_text = Some m →
  ∃ skipped pat later,
    pats = skipped ++ pat :: later
    ∧ Forall (fun pat => Re.search pat remaining_text = None) skipped
    ∧ Re.search pat remaining_text = Some m.
Proof.
  induction pats as [|pat pats IH]; simpl; [done|].
  destruct (Re.search pat remaining_text) as [m'|] eqn:Hpat.
  - intros [= ->]. exists [], pat, pats. by repeat split.
  - intros (skipped & pat' & later & -> & Hskipped & Hm)%IH.
    exists (pat :: skipped), pat', later. split; [done|].
    split; [by constructor | done].
Qed.

Lemma find_section_end_without_header text start_pos :
  Forall (fun pat => Re.search pat (Py.slice_from (start_pos + 1) text) = None)
    header_patterns →
  _find_section_end text start_pos
  = Nat.min (start_pos + 5000) (Py.len text).
Proof.
  intros Hnone%first_header_none. unfold _find_section_end. by rewrite Hnone.
Qed.

Lemma find_section_end_with_header text start_pos :
  ¬ Forall (fun pat => Re.search pat (Py.slice_from (start_pos + 1) text) = None)
      header_patterns →
  ∃ skipped pat later m,
    header_patterns = skipped ++ pat :: later
    ∧ Forall (fun pat => Re.search pat (Py.slice_from (start_pos + 1) text) = None)
        skipped
    ∧ Re.search pat (Py.slice_from (start_pos + 1) text) = Some m
    ∧ _find_section_end text start_pos = start_pos + 1 + Re.m_start m.
Proof.
  intros Hsome. unfold _find_section_end.
  destruct (first_header header_patterns _) as [m|] eqn:Hfirst.
  - apply first_header_some in Hfirst as (skipped & pat & later & Heq & Hsk & Hm).
    by exists skipped, pat, later, m.
  - by apply first_header_none in Hfirst.
Qed.

(** Every segment of a document comes from one of the two passes. *)
Lemma elem_of_extract_sections_from_document doc s :
  s ∈ _extract_sections_from_document doc →
  s ∈ _extract_from_full_text doc ∨ s ∈ _extract_from_pages doc.
Proof.
  unfold _extract_sections_from_document, sort_by_position,
    _remove_duplicate_sections.
  rewrite elem_of_sort_stable. intros Hs%elem_of_dedup_go.
  destruct (length _ <? 2); [|by left].
  by apply elem_of_app in Hs.
Qed.

End SegmenterFacts.

(** C4. Every segment the segmenter emits, from the structural pass or
    from the page-fallback pass and once duplicates are removed, has a
    body of at least 50 characters. *)
Theorem segment_body_at_least_50 (processed_docs : list ProcessedDocument)
    (s : ExtractedSection) :
  s ∈ SectionExtractor.extract_sections processed_docs →
  50 ≤ Py.len (section_text s).
Proof.
  unfold SectionExtractor.extract_sections.
  rewrite list_elem_of_In, in_flat_map.
  intros (doc & _ & Hs%list_elem_of_In).
  apply elem_of_extract_sections_from_document in Hs as [Hs|Hs].
  - apply elem_of_extract_from_full_text in Hs as (pat & m & _ & _ & Hs).
    by eapply section_of_match_body.
  - apply elem_of_extract_from_pages in Hs as (page_info & _ & Hs).
    apply section_of_page_body in Hs. lia.
Qed.

Lemma segment_body_at_least_50_witness :
  ∃ s, s ∈ SectionExtractor.extract_sections [Examples.report]
       ∧ 50 ≤ Py.len (section_text s).
Proof.
  eexists. split.
  - vm_compute. apply list_elem_of_here.
  - apply (segment_body_at_least_50 [Examples.report]).
    vm_compute. apply list_elem_of_here.
Defined.

(** C2, as stated, fails: in [Examples.paper] the structural pass detects
    headers at two offsets ("Abstract" and "Conclusion"), yet it keeps no
    segment, the page-fallback pass runs and the output is a page
    segment. *)
Lemma page_fallback_runs_after_two_headers :
  2 ≤ size (Spec.header_offsets Examples.paper)
  ∧ SectionExtractor._extract_from_full_text Examples.paper = []
  ∧ ∃ s, SectionExtractor._extract_sections_from_document Examples.paper = [s]
         ∧ s ∈ SectionExtractor._extract_from_pages Examples.paper
         ∧ confidence_score s = 1 # 2.
Proof.
  split; [vm_compute; lia|]. split; [by vm_compute|].
  eexists. split; [vm_compute; reflexivity|].
  split; [vm_compute; apply list_elem_of_here | reflexivity].
Qed.

(** C2, amended. When the structural pass keeps at least 2 segments
    (header matches whose stripped body has at least 50 characters), the
    page-fallback pass does not run: the output for the document is the
    structural-pass segments, deduplicated and sorted, and nothing else. *)
Theorem page_fallback_skipped_after_two_segments (doc : ProcessedDocument) :
  2 ≤ length (SectionExtractor._extract_from_full_text doc) →
  SectionExtractor._extract_sections_from_document doc
  = SectionExtractor.sort_by_position
      (SectionExtractor._remove_duplicate_sections
         (SectionExtractor._extract_from_full_text doc))
  ∧ ∀ s, s ∈ SectionExtractor._extract_sections_from_document doc →
         s ∈ SectionExtractor._extract_from_full_text doc
         ∧ confidence_score s = 7 # 10.
Proof.
  intros Hlen.
  assert (SectionExtractor._extract_sections_from_document doc
          = SectionExtractor.sort_by_position
              (SectionExtractor._remove_duplicate_sections
                 (SectionExtractor._extract_from_full_text doc))) as Heq.
  { unfold SectionExtractor._extract_sections_from_document.
    destruct (length _ <? 2) eqn:Hlt; [|done].
    apply Nat.ltb_lt in Hlt. lia. }
  split; [done|]. intros s. rewrite Heq.
  unfold SectionExtractor.sort_by_position,
    SectionExtractor._remove_duplicate_sections.
  rewrite elem_of_sort_stable. intros Hs%elem_of_dedup_go.
  split; [done|].
  apply elem_of_extract_from_full_text in Hs as (pat & m & _ & _ & Hs).
  by eapply section_of_match_confidence.
Qed.

Lemma page_fallback_skipped_after_two_segments_witness :
  2 ≤ length (SectionExtractor._extract_from_full_text Examples.report)
  ∧ SectionExtractor._extract_sections_from_document Examples.report
    = SectionExtractor.sort_by_position
        (SectionExtractor._remove_duplicate_sections
           (SectionExtractor._extract_from_full_text Examples.report)).
Proof.
  assert (2 ≤ length (SectionExtractor._extract_from_full_text Examples.report))
    as Hlen by (vm_compute; lia).
  split; [exact Hlen|].
  exact (proj1 (page_fallback_skipped_after_two_segments Examples.report Hlen)).
Defined.

(** C3 on [Examples.memo_text]: for the header matched at offset 0 the
    code ends the section at offset 29, the start of "2. Methods", the
    first match of the first pattern of the list, although the header
    "SUMMARY" starts at offset 10. *)
Lemma find_section_end_passes_nearer_header :
  SectionExtractor._find_section_end Examples.memo_text 0 = 29
  ∧ Spec.section_end Examples.memo_text 0 = 10
  ∧ Re.m_start <$> Re.search SectionExtractor.all_caps_line
                     (Py.slice_from 1 Examples.memo_text) = Some 9.
Proof. by vm_compute. Qed.

(** ** The lexical similarity *)

Section SimilarityFacts.
Import ModelManager.
Local Open Scope Q_scope.

Lemma div_nat_bounds (a b : nat) :
  (a ≤ b)%nat → 0 <= div_nat a b <= 1.
Proof.
  intros Hab. unfold div_nat.
  destruct b as [|b].
  - assert (a = 0%nat) as -> by lia. by vm_compute.
  - assert (0 < inject_Z (Z.of_nat (S b))) as Hpos.
    { rewrite <- (Zlt_Qlt 0). lia. }
    split.
    + apply Qle_shift_div_l; [done|]. rewrite Qmult_0_l.
      rewrite <- (Zle_Qle 0). lia.
    + apply Qle_shift_div_r; [done|]. rewrite Qmult_1_l.
      rewrite <- Zle_Qle. lia.
Qed.

Lemma jaccard_bounds (X Y : gset string) :
  0 <= div_nat (size (X ∩ Y)) (size (X ∪ Y)) <= 1.
Proof.
  apply div_nat_bounds, subseteq_size.
  intros x [Hx _]%elem_of_intersection. apply elem_of_union. by left.
Qed.

Lemma union_size_pos (X Y : gset string) :
  X ≠ ∅ → (0 < size (X ∪ Y))%nat.
Proof.
  intros HX.
  assert (size X ≠ 0%nat) as Hsize.
  { intros Hsize. apply HX. by apply size_empty_iff, leibniz_equiv in Hsize. }
  assert (size X ≤ size (X ∪ Y))%nat by (apply subseteq_size; set_solver).
  lia.
Qed.

Lemma fallback_similarity_bounds (text1 text2 : string) :
  0 <= _fallback_similarity_score text1 text2 <= 1.
Proof.
  unfold _fallback_similarity_score.
  case_decide; [by vm_compute|].
  destruct (0 <? size _)%nat; [apply jaccard_bounds | by vm_compute].
Qed.

End SimilarityFacts.

(** C7. The lexical fallback returns the Jaccard similarity of the two
    sets of case-folded, whitespace-separated words, and exactly 0 when
    one of the sets is empty; so it does on an empty first or second
    text. *)
Theorem fallback_similarity_is_jaccard (text1 text2 : string) :
  let words1 := Py.set_of (Py.split (Py.lower text1)) in
  let words2 := Py.set_of (Py.split (Py.lower text2)) in
  (ModelManager._fallback_similarity_score text1 text2
   = if decide (words1 = ∅ ∨ words2 = ∅) then 0%Q
     else ModelManager.div_nat (size (words1 ∩ words2)) (size (words1 ∪ words2)))
  ∧ (0 <= ModelManager._fallback_similarity_score text1 text2 <= 1)%Q
  ∧ ModelManager._fallback_similarity_score "" text2 = 0%Q
  ∧ ModelManager._fallback_similarity_score text1 "" = 0%Q
  ∧ ModelManager._fallback_similarity_score "" "anything" = 0%Q
  ∧ ModelManager._fallback_similarity_score "anything" "" = 0%Q.
Proof.
  intros words1 words2. split; [|split; [apply fallback_similarity_bounds|]].
  - unfold ModelManager._fallback_similarity_score.
    fold words1 words2. case_decide as Hempty; [done|].
    assert (0 < size (words1 ∪ words2)) as Hpos.
    { apply union_size_pos. tauto. }
    apply Nat.ltb_lt in Hpos. by rewrite Hpos.
  - repeat split; unfold ModelManager._fallback_similarity_score;
      (rewrite decide_True; [done|]); (by left) || (by right).
Qed.

(** C10. Whatever the state of the model manager, [compute_similarity]
    returns the lexical fallback score and never raises; two managers
    give the same value on the same texts, and two rankers the same score
    and factors on the same segment and persona. *)
Theorem compute_similarity_is_fallback (self : ModelManager) (text1 text2 : string) :
  ModelManager.get_sentence_encoder self = None
  ∧ ModelManager.compute_similarity self text1 text2
    = Ok (ModelManager._fallback_similarity_score text1 text2)
  ∧ (∀ other : ModelManager,
       ModelManager.compute_similarity other text1 text2
       = ModelManager.compute_similarity self text1 text2)
  ∧ (∀ (ranker1 ranker2 : RelevanceRanker) section persona_analysis,
       RelevanceRanker._calculate_relevance_score ranker1 section persona_analysis
       = RelevanceRanker._calculate_relevance_score ranker2 section persona_analysis).
Proof.
  repeat split.
Qed.

(** ** The persona model *)

Section PersonaFacts.
Import PersonaAnalyzer.

Lemma extend_areas_concat table persona_lower areas :
  extend_areas table persona_lower areas
  = areas ++ concat ((filter (fun entry => Is_true (Py.str_in entry.1 persona_lower))
                        table).*2).
Proof.
  revert areas. induction table as [|[key keywords] table IH]; intros areas.
  - simpl. by rewrite app_nil_r.
  - simpl. rewrite filter_cons. simpl.
    destruct (Py.str_in key persona_lower) eqn:Hkey.
    + rewrite decide_True by exact I. rewrite IH. csimpl. by rewrite <- app_assoc.
    + rewrite decide_False by (by intros []). apply IH.
Qed.

End PersonaFacts.

(** C9, as stated, fails: a persona that names both a researcher and an
    analyst gets the term "analysis" twice. *)
Lemma expertise_areas_repeat_analysis :
  PersonaAnalyzer._extract_expertise_areas "Researcher and analyst"
  = ["research"; "analysis"; "methodology"; "data"; "analysis"]
  ∧ ¬ NoDup (PersonaAnalyzer._extract_expertise_areas "Researcher and analyst").
Proof.
  split; [by vm_compute|].
  replace (PersonaAnalyzer._extract_expertise_areas "Researcher and analyst")
    with ["research"; "analysis"; "methodology"; "data"; "analysis"]
    by (by vm_compute).
  intros Hnd. apply NoDup_cons in Hnd as [_ Hnd].
  apply NoDup_cons in Hnd as [Hnot _]. apply Hnot.
  do 2 apply list_elem_of_further. apply list_elem_of_here.
Qed.

(** C9, amended. The expertise terms of a persona are the term lists of
    the role keywords found in the case-folded persona, concatenated in
    table order and cut to the first 5 entries; every entry comes from the
    list of a role keyword that occurs in the persona.  A term shared by
    two such lists is kept once per list. *)
Theorem expertise_areas_concat_capped (persona : string) :
  PersonaAnalyzer._extract_expertise_areas persona
  = take 5 (concat ((Spec.matching_roles (Py.lower persona)).*2))
  ∧ length (PersonaAnalyzer._extract_expertise_areas persona) ≤ 5
  ∧ ∀ term, term ∈ PersonaAnalyzer._extract_expertise_areas persona →
      ∃ key keywords,
        (key, keywords) ∈ PersonaAnalyzer.expertise_keywords
        ∧ Py.str_in key (Py.lower persona) = true
        ∧ term ∈ keywords.
Proof.
  assert (PersonaAnalyzer._extract_expertise_areas persona
          = take 5 (concat ((Spec.matching_roles (Py.lower persona)).*2))) as Heq.
  { unfold PersonaAnalyzer._extract_expertise_areas.
    by rewrite extend_areas_concat. }
  split; [done|]. split.
  - rewrite Heq, length_take. lia.
  - intros term. rewrite Heq. intros Hterm%elem_of_take.
    destruct Hterm as (i & Hterm%list_elem_of_lookup_2 & _).
    apply list_elem_of_In, in_concat in Hterm as (keywords & Hkw & Hterm).
    apply list_elem_of_In, list_elem_of_fmap in Hkw as ([key keywords'] & -> & Hentry).
    apply list_elem_of_filter in Hentry as [Hkey Hentry].
    exists key, keywords'. split_and!; [done| |by apply list_elem_of_In].
    by apply Is_true_true.
Qed.

(** ** The keyword factor *)

Section KeywordFacts.
Import RelevanceRanker.

Lemma count_matches_sum title body all_keywords matches :
  count_matches (Py.lower title) (Py.lower body) all_keywords matches
  = matches + sum_list (Spec.contribution title body <$> all_keywords).
Proof.
  revert matches. induction all_keywords as [|keyword rest IH]; intros matches.
  - simpl. lia.
  - csimpl. unfold Spec.contribution at 1.
    destruct (Py.str_in (Py.lower keyword) (Py.lower title)).
    + rewrite IH. lia.
    + destruct (Py.str_in (Py.lower keyword) (Py.lower body)); rewrite IH; lia.
Qed.

End KeywordFacts.

(** C6, as stated, fails when a term occurs in more than one of the three
    collections: for [Examples.investor], built by [analyze_persona],
    "revenue" and "trend" are interests and priority words, the code
    returns 4/18 and the factor over the union of the terms is 2/15. *)
Lemma keyword_match_not_over_union :
  RelevanceRanker._calculate_keyword_match_score
    Examples.revenue_section Examples.investor = 40 # 180
  ∧ Spec.keyword_match_union Examples.revenue_section Examples.investor = 20 # 150
  ∧ ¬ (RelevanceRanker._calculate_keyword_match_score
         Examples.revenue_section Examples.investor
       == Spec.keyword_match_union Examples.revenue_section Examples.investor)%Q.
Proof.
  split; [by vm_compute|]. split; [by vm_compute|].
  replace (RelevanceRanker._calculate_keyword_match_score
             Examples.revenue_section Examples.investor) with (40 # 180)
    by (by vm_compute).
  replace (Spec.keyword_match_union Examples.revenue_section Examples.investor)
    with (20 # 150) by (by vm_compute).
  unfold Qeq. simpl. lia.
Qed.

(** C6, amended. The keyword factor runs over the concatenation of the
    expertise, interest and priority terms, a term counting once for each
    of its occurrences: each occurrence adds 2 if the case-folded term is
    in the case-folded title, else 1 if it is in the case-folded body,
    else 0; the sum is divided by 1.5 times the length of the
    concatenation and clamped to 1; without terms the factor is 0.  The
    terms travel and guide against the title "Travel Guide" give
    (2+2)/3, clamped to 1. *)
Theorem keyword_match_over_concatenation (section : ExtractedSection)
    (persona_analysis : PersonaAnalysis) :
  RelevanceRanker._calculate_keyword_match_score section persona_analysis
  = Spec.keyword_match_over
      (expertise_areas persona_analysis ++ key_interests persona_analysis
       ++ priority_keywords persona_analysis)
      (section_title section) (section_text section)
  ∧ Spec.keyword_match_over [] (section_title section) (section_text section) = 0%Q
  ∧ (∀ body,
       sum_list (Spec.contribution "Travel Guide" body <$> ["travel"; "guide"]) = 4
       ∧ RelevanceRanker._calculate_keyword_match_score
           (Examples.guide_section body) (Examples.traveller ["travel"; "guide"])
         = 1%Q).
Proof.
  split; [|split; [done|]].
  - unfold RelevanceRanker._calculate_keyword_match_score, Spec.keyword_match_over.
    destruct (expertise_areas persona_analysis ++ _) as [|keyword rest]; [done|].
    by rewrite count_matches_sum.
  - intros body. split; by vm_compute.
Qed.

(** ** Stability of the descending sort *)

Section StableFacts.
Context {A : Type} (key : A → Q).

Lemma Qlt_bool_true (a b : Q) :
  RelevanceRanker.Qlt_bool a b = true ↔ (a < b)%Q.
Proof.
  unfold RelevanceRanker.Qlt_bool. rewrite negb_true_iff.
  split.
  - intros Hle. apply Qnot_le_lt. intros Hba%Qle_bool_iff. congruence.
  - intros Hlt. destruct (Qle_bool b a) eqn:Hle; [|done].
    apply Qle_bool_iff in Hle. by apply Qlt_not_le in Hlt.
Qed.

Lemma Qlt_bool_false (a b : Q) :
  RelevanceRanker.Qlt_bool a b = false ↔ (b <= a)%Q.
Proof.
  unfold RelevanceRanker.Qlt_bool. rewrite negb_false_iff.
  apply Qle_bool_iff.
Qed.

Lemma precedes_trans_le (x y z : nat * A) :
  (key y.2 <= key x.2)%Q → Spec.precedes key y z → x.1 < z.1 →
  Spec.precedes key x z.
Proof.
  unfold Spec.precedes. intros Hyx [Hzy|[Hyz Htag]] Hxz.
  - left. by eapply Qlt_le_trans.
  - destruct (Qlt_le_dec (key z.2) (key x.2)) as [Hlt|Hle]; [by left|].
    right. split; [|done].
    apply Qle_antisym; [done|]. by rewrite <- Hyz.
Qed.

Lemma insert_tagged_sorted (x : nat * A) (l : list (nat * A)) :
  StronglySorted (Spec.precedes key) l →
  Forall (fun q => x.1 < q.1) l →
  StronglySorted (Spec.precedes key)
    (Py.insert_stable (Spec.tagged_before key) x l).
Proof.
  induction l as [|y l IH]; intros Hsorted Htags; simpl.
  - repeat constructor.
  - apply StronglySorted_inv in Hsorted as [Hl Hy].
    apply Forall_cons in Htags as [Hxy Htags].
    unfold Spec.tagged_before at 1.
    destruct (RelevanceRanker.Qlt_bool (key x.2) (key y.2)) eqn:Hcmp.
    + apply Qlt_bool_true in Hcmp. constructor; [by apply IH|].
      rewrite insert_stable_perm. constructor; [by left | done].
    + apply Qlt_bool_false in Hcmp. constructor; [by constructor|].
      constructor.
      * destruct (Qlt_le_dec (key y.2) (key x.2)) as [Hlt|Hle]; [by left|].
        right. split; [by apply Qle_antisym | done].
      * rewrite Forall_forall in Hy, Htags. apply Forall_forall.
        intros z Hz. eapply precedes_trans_le; eauto.
Qed.

Lemma sort_tagged_sorted (l : list (nat * A)) :
  StronglySorted (fun p q => p.1 < q.1) l →
  StronglySorted (Spec.precedes key)
    (Py.sort_stable (Spec.tagged_before key) l).
Proof.
  induction l as [|x l IH]; intros Hsorted; simpl; [constructor|].
  apply StronglySorted_inv in Hsorted as [Hl Hx].
  apply insert_tagged_sorted; [by apply IH|].
  by rewrite sort_stable_perm.
Qed.

Lemma tag_from_snd (i : nat) (l : list A) : (Spec.tag_from i l).*2 = l.
Proof. revert i. induction l as [|x l IH]; intros i; csimpl; by rewrite ?IH. Qed.

Lemma tag_from_fst (i : nat) (l : list A) :
  (Spec.tag_from i l).*1 = seq i (length l).
Proof. revert i. induction l as [|x l IH]; intros i; csimpl; by rewrite ?IH. Qed.

Lemma tag_from_lookup (i : nat) (l : list A) :
  Forall (fun p => i ≤ p.1 ∧ l !! (p.1 - i) = Some p.2) (Spec.tag_from i l).
Proof.
  revert i. induction l as [|x l IH]; intros i; simpl; constructor.
  - simpl. by rewrite Nat.sub_diag.
  - eapply Forall_impl; [apply IH|]. intros [j y] [Hj Hy]; simpl in *.
    split; [lia|]. by replace (j - i) with (S (j - S i)) by lia.
Qed.

Lemma tag_from_sorted (i : nat) (l : list A) :
  StronglySorted (fun p q => p.1 < q.1) (Spec.tag_from i l).
Proof.
  revert i. induction l as [|x l IH]; intros i; simpl; constructor; [done|].
  eapply Forall_impl; [apply (tag_from_lookup (S i) l)|].
  intros [j y] [Hj _]; simpl in *. lia.
Qed.

Lemma StronglySorted_lookup_lt {B : Type} (R : B → B → Prop) (l : list B)
    (a b : nat) (x y : B) :
  StronglySorted R l → l !! a = Some x → l !! b = Some y → a < b → R x y.
Proof.
  intros Hsorted. revert a b.
  induction Hsorted as [|z l Hl IH Hz]; intros a b Ha Hb Hab; [done|].
  destruct b as [|b]; [lia|]. simpl in Hb.
  destruct a as [|a]; simpl in Ha.
  - injection Ha as ->. rewrite Forall_forall in Hz.
    by eapply Hz, list_elem_of_lookup_2.
  - eapply IH; eauto. lia.
Qed.

End StableFacts.

(** ** The factors of the relevance score *)

Section ScoreFacts.
Import RelevanceRanker.
Local Open Scope Q_scope.

Lemma of_nat_nonneg (n : nat) : 0 <= of_nat n.
Proof. unfold of_nat. rewrite <- (Zle_Qle 0). lia. Qed.

Lemma of_nat_pos (n : nat) : (0 < n)%nat → 0 < of_nat n.
Proof. intros Hn. unfold of_nat. rewrite <- (Zlt_Qlt 0). lia. Qed.

Lemma clamped_ratio_bounds (a b : Q) :
  0 <= a → 0 < b → 0 <= Qmin (a / b) 1 <= 1.
Proof.
  intros Ha Hb. split; [|apply Q.le_min_r].
  apply Q.min_glb; [|done].
  apply Qle_shift_div_l; [done|]. by rewrite Qmult_0_l.
Qed.

Lemma keyword_match_bounds section persona_analysis :
  0 <= _calculate_keyword_match_score section persona_analysis <= 1.
Proof.
  unfold _calculate_keyword_match_score.
  destruct (expertise_areas persona_analysis ++ _) as [|keyword rest] eqn:Hkw;
    [done|].
  apply clamped_ratio_bounds; [apply of_nat_nonneg|].
  apply (Qmult_lt_0_compat _ 1.5); [|done].
  apply of_nat_pos. simpl. lia.
Qed.

Lemma title_relevance_bounds section persona_analysis :
  0 <= _calculate_title_relevance_score section persona_analysis <= 1.
Proof.
  unfold _calculate_title_relevance_score.
  destruct (filter _ (Py.split _)) as [|word rest]; [done|].
  apply clamped_ratio_bounds; [apply of_nat_nonneg|].
  apply of_nat_pos. simpl. lia.
Qed.

Lemma type_scores_bounds job_lower ty v :
  type_scores_for job_lower !! ty = Some v → 0.2 <= v <= 0.9.
Proof.
  unfold type_scores_for.
  repeat match goal with |- context [if ?b then _ else _] => destruct b end;
    intros Hv%elem_of_list_to_map_2;
    repeat (apply elem_of_cons in Hv as [[= _ ->]|Hv]; [split; by vm_compute|]);
    by apply elem_of_nil in Hv.
Qed.

Lemma section_type_bounds section persona_analysis :
  0 <= _calculate_section_type_score section persona_analysis <= 0.9.
Proof.
  unfold _calculate_section_type_score.
  destruct (type_scores_for _ !! _) as [v|] eqn:Hv; simpl; [|done].
  apply type_scores_bounds in Hv as [Hlo Hhi]. split; [|done].
  by apply Qle_trans with 0.2.
Qed.

Lemma content_length_bounds section :
  0 <= _calculate_content_length_score section <= 1.
Proof.
  unfold _calculate_content_length_score.
  repeat match goal with |- context [if ?b then _ else _] => destruct b end;
    done.
Qed.

Lemma position_bias_bounds section :
  0 <= _calculate_position_bias_score section <= 1.
Proof.
  unfold _calculate_position_bias_score.
  repeat match goal with |- context [if ?b then _ else _] => destruct b end;
    done.
Qed.

Lemma semantic_similarity_bounds self section persona_analysis :
  0 <= _calculate_semantic_similarity_score self section persona_analysis <= 1.
Proof.
  unfold _calculate_semantic_similarity_score, ModelManager.compute_similarity.
  simpl.
  match goal with
  | |- context [ModelManager._fallback_similarity_score ?a ?b] =>
      pose proof (fallback_similarity_bounds a b) as [Hlo Hhi];
      generalize dependent (ModelManager._fallback_similarity_score a b)
  end.
  intros similarity Hlo Hhi.
  destruct (Qlt_bool 0.7 similarity); [|done].
  split; [|apply Q.le_min_r].
  apply Q.min_glb; [|done].
  rewrite <- (Qmult_0_l 1.2). by apply Qmult_le_compat_r.
Qed.

(** The weighted sum over the six factors of [_calculate_relevance_score]. *)
Lemma weighted_sum_six (kw sem ty len pos title : Q) :
  weighted_sum
    [ ("keyword_match", kw); ("semantic_similarity", sem);
      ("section_type_importance", ty); ("content_length", len);
      ("position_bias", pos); ("title_relevance", title) ]
    [ "keyword_match"; "semantic_similarity"; "section_type_importance";
      "content_length"; "position_bias"; "title_relevance" ] 0
  = Ok (0 + kw * 0.25 + sem * 0.35 + ty * 0.25 + len * 0.05 + pos * 0.05
        + title * 0.05).
Proof. reflexivity. Qed.

End ScoreFacts.

(** ** The scorer and the ranker *)

Section RankerFacts.
Import RelevanceRanker.
Local Open Scope Q_scope.

Lemma Qabs_diff_small (x y : Q) : x == y → Qabs (x - y) <= 1 # 1000000.
Proof.
  intros Hxy. assert (x - y == 0) as -> by (rewrite Hxy; ring).
  by vm_compute.
Qed.

(** Scoring never raises: the six factors are there and every one has
    a weight. *)
Lemma relevance_score_value self section persona_analysis :
  _calculate_relevance_score self section persona_analysis
  = Ok (0 + _calculate_keyword_match_score section persona_analysis * 0.25
          + _calculate_semantic_similarity_score self section persona_analysis * 0.35
          + _calculate_section_type_score section persona_analysis * 0.25
          + _calculate_content_length_score section * 0.05
          + _calculate_position_bias_score section * 0.05
          + _calculate_title_relevance_score section persona_analysis * 0.05,
        [ ("keyword_match", _calculate_keyword_match_score section persona_analysis);
          ("semantic_similarity",
            _calculate_semantic_similarity_score self section persona_analysis);
          ("section_type_importance",
            _calculate_section_type_score section persona_analysis);
          ("content_length", _calculate_content_length_score section);
          ("position_bias", _calculate_position_bias_score section);
          ("title_relevance",
            _calculate_title_relevance_score section persona_analysis) ]).
Proof.
  unfold _calculate_relevance_score. cbv zeta.
  change ((?l : list (string * Q)).*1) with (fst <$> l).
  cbn [fmap list_fmap fst].
  by rewrite weighted_sum_six.
Qed.

Lemma relevance_score_bounds self section persona_analysis score factors :
  _calculate_relevance_score self section persona_analysis = Ok (score, factors) →
  0 <= score <= 39 # 40.
Proof.
  rewrite relevance_score_value. intros [= <- _].
  pose proof (keyword_match_bounds section persona_analysis).
  pose proof (semantic_similarity_bounds self section persona_analysis).
  pose proof (section_type_bounds section persona_analysis).
  pose proof (content_length_bounds section).
  pose proof (position_bias_bounds section).
  pose proof (title_relevance_bounds section persona_analysis).
  lra.
Qed.

(** What [score_all] holds: one entry per section, in order, with the
    score and the factors of that section. *)
Lemma score_all_sections self sections persona_analysis :
  section <$> score_all self sections persona_analysis = sections.
Proof.
  induction sections as [|s sections IH]; [done|].
  simpl. rewrite relevance_score_value. csimpl. by rewrite IH.
Qed.

Lemma score_all_scored self sections persona_analysis :
  Forall (fun r =>
            _calculate_relevance_score self (section r) persona_analysis
            = Ok (relevance_score r, ranking_factors r))
    (score_all self sections persona_analysis).
Proof.
  induction sections as [|s sections IH]; [constructor|].
  simpl. rewrite relevance_score_value. constructor; [|done].
  simpl. by rewrite relevance_score_value.
Qed.

Lemma assign_ranks_lookup i l a :
  assign_ranks i l !! a = set_rank (i + a) <$> l !! a.
Proof.
  revert i a. induction l as [|r l IH]; intros i a; [done|].
  destruct a as [|a]; simpl.
  - by rewrite Nat.add_0_r.
  - rewrite IH. by replace (S i + a)%nat with (i + S a)%nat by lia.
Qed.

Lemma assign_ranks_length i l : length (assign_ranks i l) = length l.
Proof. revert i. induction l as [|r l IH]; intros i; simpl; by rewrite ?IH. Qed.

Lemma assign_ranks_ranks i l :
  importance_rank <$> assign_ranks i l = seq i (length l).
Proof. revert i. induction l as [|r l IH]; intros i; csimpl; by rewrite ?IH. Qed.

Lemma elem_of_assign_ranks i l r :
  r ∈ assign_ranks i l → ∃ r0 j, r0 ∈ l ∧ r = set_rank j r0.
Proof.
  intros (a & Ha)%list_elem_of_lookup_1.
  rewrite assign_ranks_lookup in Ha.
  destruct (l !! a) as [r0|] eqn:Hr0; [|done].
  injection Ha as <-. exists r0, (i + a)%nat.
  split; [by eapply list_elem_of_lookup_2 | done].
Qed.

End RankerFacts.

(** C1. Every scored segment the ranker returns has a score between 0
    and 1; its factor breakdown holds the six factors, and the score is
    their sum weighted by 0.25, 0.35, 0.25, 0.05, 0.05 and 0.05, exactly
    and so within 1e-6. *)
Theorem scored_segment_score_weighted_sum (self : RelevanceRanker)
    (sections : list ExtractedSection) (persona_analysis : PersonaAnalysis)
    (out : list RankedSection) (r : RankedSection) :
  RelevanceRanker.rank_sections self sections persona_analysis = Ok out →
  r ∈ out →
  (0 <= relevance_score r <= 1)%Q
  ∧ ∃ kw sem ty len pos title : Q,
      ranking_factors r
      = [ ("keyword_match", kw); ("semantic_similarity", sem);
          ("section_type_importance", ty); ("content_length", len);
          ("position_bias", pos); ("title_relevance", title) ]
      ∧ (relevance_score r
         == kw * 0.25 + sem * 0.35 + ty * 0.25 + len * 0.05 + pos * 0.05
            + title * 0.05)%Q
      ∧ (Qabs (relevance_score r
               - (kw * 0.25 + sem * 0.35 + ty * 0.25 + len * 0.05 + pos * 0.05
                  + title * 0.05)) <= 1 # 1000000)%Q.
Proof.
  unfold RelevanceRanker.rank_sections, RelevanceRanker.rank_scored.
  intros Hout Hr.
  destruct (RelevanceRanker.assign_ranks 1 _) as [|r1 rest] eqn:Hranked; [done|].
  injection Hout as <-. rewrite <- Hranked in Hr.
  apply elem_of_assign_ranks in Hr as (r0 & j & Hr0 & ->).
  unfold RelevanceRanker.sort_by_score in Hr0.
  rewrite elem_of_sort_stable in Hr0.
  pose proof (score_all_scored self sections persona_analysis) as Hscored.
  rewrite Forall_forall in Hscored. specialize (Hscored r0 Hr0).
  pose proof (relevance_score_bounds _ _ _ _ _ Hscored) as [Hlo Hhi].
  rewrite relevance_score_value in Hscored. injection Hscored as Hscore Hfactors.
  unfold RelevanceRanker.set_rank. cbn [relevance_score ranking_factors]. split.
  - split; [done|]. apply Qle_trans with (39 # 40); [done | by vm_compute].
  - do 6 eexists. split; [symmetry; exact Hfactors|].
    rewrite <- Hscore.
    match goal with |- (?x == ?y)%Q ∧ _ => assert (x == y)%Q as Heq by ring end.
    split; [exact Heq | by apply Qabs_diff_small].
Qed.

Lemma scored_segment_score_weighted_sum_witness :
  ∃ out r,
    RelevanceRanker.rank_sections Examples.ranker
      (SectionExtractor.extract_sections [Examples.report]) Examples.investor
    = Ok out
    ∧ r ∈ out
    ∧ (0 <= relevance_score r <= 1)%Q.
Proof.
  eexists _, _. split; [vm_compute; reflexivity|].
  split; [apply list_elem_of_here|].
  eapply proj1,
    (scored_segment_score_weighted_sum Examples.ranker
       (SectionExtractor.extract_sections [Examples.report]) Examples.investor).
  - vm_compute. reflexivity.
  - apply list_elem_of_here.
Defined.

(** C5. On every non-empty sequence of scored segments, whatever their
    scores, the ranker returns all of them by descending score; [idx]
    gives for each output position the input position it comes from, and
    a segment keeps its score and its factors.  The ranks are 1, ..., N
    in output order.  Of two segments the one with the higher score has
    the lower rank number, and of two segments with equal scores the one
    that is earlier in the input has the lower rank number.  The scores
    compared are the numbers stored in the segments, so the order is the
    one of the code for the scores the interpreter computes. *)
Theorem rank_sections_stable_dense (scored : list RankedSection) :
  scored ≠ [] →
  ∃ (out : list RankedSection) (idx : list nat),
    RelevanceRanker.rank_scored scored = Ok out
    ∧ idx ≡ₚ seq 0 (length scored)
    ∧ length out = length scored
    ∧ importance_rank <$> out = seq 1 (length scored)
    ∧ (∀ a r, out !! a = Some r →
         ∃ i r0, idx !! a = Some i
                 ∧ scored !! i = Some r0
                 ∧ section r = section r0
                 ∧ relevance_score r = relevance_score r0
                 ∧ ranking_factors r = ranking_factors r0)
    ∧ (∀ a b ra rb i j,
         out !! a = Some ra → out !! b = Some rb →
         idx !! a = Some i → idx !! b = Some j →
         ((relevance_score rb < relevance_score ra)%Q →
            importance_rank ra < importance_rank rb)
         ∧ ((relevance_score ra == relevance_score rb)%Q → i < j →
            importance_rank ra < importance_rank rb)
         ∧ (a < b → (relevance_score rb <= relevance_score ra)%Q)).
Proof.
  intros Hne.
  remember (Py.sort_stable (Spec.tagged_before relevance_score)
              (Spec.tag_from 0 scored)) as T eqn:HT_eq.
  assert (T.*2 = RelevanceRanker.sort_by_score scored) as Hsnd.
  { rewrite HT_eq. unfold RelevanceRanker.sort_by_score.
    rewrite (sort_stable_fmap snd (Spec.tagged_before relevance_score)
               (fun y x => RelevanceRanker.Qlt_bool (relevance_score x)
                             (relevance_score y))) by done.
    by rewrite tag_from_snd. }
  assert (T.*1 ≡ₚ seq 0 (length scored)) as Hfst.
  { by rewrite HT_eq, sort_stable_perm, tag_from_fst. }
  assert (StronglySorted (Spec.precedes relevance_score) T) as Hsorted.
  { rewrite HT_eq. apply sort_tagged_sorted, tag_from_sorted. }
  assert (Forall (fun p => scored !! p.1 = Some p.2) T) as Hlook.
  { rewrite HT_eq, sort_stable_perm.
    eapply Forall_impl; [apply (tag_from_lookup 0 scored)|].
    intros [i r0] [_ Hi]; simpl in *. by rewrite Nat.sub_0_r in Hi. }
  assert (length T = length scored) as HlenT.
  { by rewrite HT_eq, sort_stable_length, <- (length_fmap fst), tag_from_fst,
      length_seq. }
  remember (RelevanceRanker.assign_ranks 1 (T.*2)) as out eqn:Hout_eq.
  assert (∀ a r, out !! a = Some r →
            ∃ i r0, T !! a = Some (i, r0)
                    ∧ r = RelevanceRanker.set_rank (1 + a) r0) as Hout.
  { intros a r. rewrite Hout_eq, assign_ranks_lookup, list_lookup_fmap.
    destruct (T !! a) as [[i r0]|]; [|done].
    intros [= <-]. by exists i, r0. }
  exists out, (T.*1). split_and!.
  - unfold RelevanceRanker.rank_scored.
    rewrite <- Hsnd, <- Hout_eq.
    destruct out as [|r out']; [|done].
    apply (f_equal length) in Hout_eq.
    rewrite assign_ranks_length, length_fmap, HlenT in Hout_eq.
    by destruct scored.
  - done.
  - by rewrite Hout_eq, assign_ranks_length, length_fmap.
  - by rewrite Hout_eq, assign_ranks_ranks, length_fmap, HlenT.
  - intros a r (i & r0 & HT & ->)%Hout.
    rewrite Forall_forall in Hlook.
    pose proof (Hlook _ (list_elem_of_lookup_2 _ _ _ HT)) as Hi. simpl in Hi.
    exists i, r0. split_and!; [|done..].
    by rewrite list_lookup_fmap, HT.
  - intros a b ra rb i j (i' & ra0 & HTa & ->)%Hout (j' & rb0 & HTb & ->)%Hout.
    rewrite !list_lookup_fmap, HTa, HTb. intros [= <-] [= <-]. simpl.
    assert (∀ a' b' p q, T !! a' = Some p → T !! b' = Some q → a' < b' →
              Spec.precedes relevance_score p q) as Hord.
    { intros a' b' p q Hp Hq Hlt.
      by eapply (StronglySorted_lookup_lt _ T a' b'). }
    split_and!.
    + intros Hlt. destruct (Nat.lt_trichotomy a b) as [Hab|[->|Hba]]; [lia| |].
      * rewrite HTa in HTb. injection HTb as <- <-.
        by apply Qlt_irrefl in Hlt.
      * destruct (Hord b a _ _ HTb HTa Hba) as [Hlt'|[Heq _]]; simpl in *.
        -- exfalso. eapply Qlt_irrefl, Qlt_trans; eauto.
        -- rewrite Heq in Hlt. by apply Qlt_irrefl in Hlt.
    + intros Heq Hij.
      destruct (Nat.lt_trichotomy a b) as [Hab|[->|Hba]]; [lia| |].
      * rewrite HTa in HTb. injection HTb as <- <-. lia.
      * destruct (Hord b a _ _ HTb HTa Hba) as [Hlt'|[_ Hji]]; simpl in *.
        -- rewrite Heq in Hlt'. by apply Qlt_irrefl in Hlt'.
        -- lia.
    + intros Hab.
      destruct (Hord a b _ _ HTa HTb Hab) as [Hlt|[Heq _]]; simpl in *.
      * by apply Qlt_le_weak.
      * rewrite Heq. apply Qle_refl.
Qed.

Lemma rank_sections_stable_dense_witness :
  RelevanceRanker.score_all Examples.ranker
    (SectionExtractor.extract_sections [Examples.report]) Examples.investor ≠ []
  ∧ ∃ out,
      RelevanceRanker.rank_sections Examples.ranker
        (SectionExtractor.extract_sections [Examples.report]) Examples.investor
      = Ok out
      ∧ importance_rank <$> out
        = seq 1 (length (RelevanceRanker.score_all Examples.ranker
                           (SectionExtractor.extract_sections [Examples.report])
                           Examples.investor)).
Proof.
  assert (RelevanceRanker.score_all Examples.ranker
            (SectionExtractor.extract_sections [Examples.report])
            Examples.investor ≠ []) as Hne
    by (by vm_compute).
  split; [exact Hne|].
  destruct (rank_sections_stable_dense
              (RelevanceRanker.score_all Examples.ranker
                 (SectionExtractor.extract_sections [Examples.report])
                 Examples.investor) Hne)
    as (out & idx & Hout & _ & _ & Hranks & _).
  exists out. split; [exact Hout | exact Hranks].
Defined.

(** C8 on the empty sequence of segments: building the message logged
    before returning reads the first ranked section, and the ranker
    raises [IndexError]; so does the pipeline on a document without text,
    which the segmenter turns into no segment at all. *)
Theorem rank_sections_empty_raises (self : RelevanceRanker)
    (persona_analysis : PersonaAnalysis) (persona job_to_be_done : string) :
  RelevanceRanker.rank_sections self [] persona_analysis = Err IndexError
  ∧ SectionExtractor.extract_sections [Examples.blank] = []
  ∧ DocumentAnalyst.analyze self [Examples.blank] persona job_to_be_done
    = Err IndexError
  ∧ DocumentAnalyst.analyze self [] persona job_to_be_done = Err IndexError.
Proof.
  assert (SectionExtractor.extract_sections [Examples.blank] = []) as Hblank
    by (by vm_compute).
  split_and!.
  - reflexivity.
  - exact Hblank.
  - unfold DocumentAnalyst.analyze. rewrite Hblank. reflexivity.
  - reflexivity.
Qed.

Lemma expertise_areas_concat_capped_witness :
  "analysis" ∈ PersonaAnalyzer._extract_expertise_areas "Researcher and analyst"
  ∧ ∃ key keywords,
      (key, keywords) ∈ PersonaAnalyzer.expertise_keywords
      ∧ Py.str_in key (Py.lower "Researcher and analyst") = true
      ∧ "analysis" ∈ keywords.
Proof.
  assert ("analysis"
          ∈ PersonaAnalyzer._extract_expertise_areas "Researcher and analyst")
    as Hin by (vm_compute; apply list_elem_of_further, list_elem_of_here).
  split; [exact Hin|].
  exact (proj2 (proj2 (expertise_areas_concat_capped "Researcher and analyst"))
           "analysis" Hin).
Defined.

(** * Further properties *)

(** ** Deduplication and order of the segments *)

Section DedupFacts.
Import SectionExtractor.

Lemma dedup_go_keys seen sections :
  NoDup (Notions.title_key <$> dedup_go seen sections)
  ∧ Forall (fun s => Notions.title_key s ∉ seen) (dedup_go seen sections).
Proof.
  revert seen. induction sections as [|s sections IH]; intros seen; simpl.
  - split; constructor.
  - fold (Notions.title_key s). case_decide as Hseen; [apply IH|].
    destruct (IH ({[Notions.title_key s]} ∪ seen)) as [Hnd Hout].
    split.
    + csimpl. constructor; [|done].
      intros (s' & Hkey & Hs')%list_elem_of_fmap.
      rewrite Forall_forall in Hout. apply (Hout s' Hs').
      rewrite <- Hkey. by apply elem_of_union_l, elem_of_singleton.
    + constructor; [done|].
      eapply Forall_impl; [exact Hout|]. simpl.
      intros s' Hs' Hin. apply Hs'. by apply elem_of_union_r.
Qed.

Lemma dedup_go_sublist seen sections :
  dedup_go seen sections `sublist_of` sections.
Proof.
  revert seen. induction sections as [|s sections IH]; intros seen; simpl.
  - constructor.
  - case_decide; [apply sublist_cons | apply sublist_skip]; apply IH.
Qed.

Lemma dedup_go_first seen before s after :
  Notions.title_key s ∉ seen →
  Notions.title_key s ∉ Notions.title_key <$> before →
  s ∈ dedup_go seen (before ++ s :: after).
Proof.
  revert seen. induction before as [|x before IH]; intros seen Hseen Hbefore; simpl.
  - fold (Notions.title_key s). rewrite decide_False by done. left.
  - fold (Notions.title_key x). csimpl in Hbefore.
    apply not_elem_of_cons in Hbefore as [Hne Hbefore].
    case_decide.
    + by apply IH.
    + right. apply IH; [|done].
      intros [Heq%elem_of_singleton|Hin]%elem_of_union; [|done].
      by apply Hne.
Qed.

End DedupFacts.

(** X1. [_remove_duplicate_sections] keeps the sections in their order
    and drops some: the kept sections have pairwise different title keys
    (the title case-folded and stripped), and the first section of the
    input with a given key is kept. *)
Theorem remove_duplicates_first_seen (sections : list ExtractedSection) :
  NoDup (Notions.title_key <$> SectionExtractor._remove_duplicate_sections sections)
  ∧ SectionExtractor._remove_duplicate_sections sections `sublist_of` sections
  ∧ ∀ before s after,
      sections = before ++ s :: after →
      Notions.title_key s ∉ Notions.title_key <$> before →
      s ∈ SectionExtractor._remove_duplicate_sections sections.
Proof.
  unfold SectionExtractor._remove_duplicate_sections. split_and!.
  - apply dedup_go_keys.
  - apply dedup_go_sublist.
  - intros before s after -> Hbefore.
    apply dedup_go_first; [apply not_elem_of_empty | done].
Qed.

Lemma remove_duplicates_first_seen_witness :
  ∃ s, s ∈ SectionExtractor._remove_duplicate_sections
             (SectionExtractor._extract_from_full_text Examples.report).
Proof.
  destruct (SectionExtractor._extract_from_full_text Examples.report)
    as [|s after] eqn:Hsections; [by vm_compute in Hsections|].
  exists s.
  apply (proj2 (proj2 (remove_duplicates_first_seen (s :: after))) [] s after);
    [reflexivity | apply not_elem_of_nil].
Defined.

Section OrderFacts.
Context {A : Type} (key : A → nat).

Lemma insert_by_key_sorted (x : A) (l : list A) :
  StronglySorted (fun a b => key a ≤ key b) l →
  StronglySorted (fun a b => key a ≤ key b)
    (Py.insert_stable (fun y x => key y <? key x) x l).
Proof.
  induction l as [|y l IH]; intros Hsorted; simpl.
  - repeat constructor.
  - apply StronglySorted_inv in Hsorted as [Hl Hy].
    destruct (key y <? key x) eqn:Hcmp.
    + apply Nat.ltb_lt in Hcmp. constructor; [by apply IH|].
      rewrite insert_stable_perm. constructor; [lia | done].
    + apply Nat.ltb_ge in Hcmp. constructor; [by constructor|].
      constructor; [done|].
      eapply Forall_impl; [exact Hy|]. simpl. intros; lia.
Qed.

Lemma sort_by_key_sorted (l : list A) :
  StronglySorted (fun a b => key a ≤ key b)
    (Py.sort_stable (fun y x => key y <? key x) l).
Proof.
  induction l as [|x l IH]; simpl; [constructor|].
  by apply insert_by_key_sorted.
Qed.

End OrderFacts.

(** X2. The segments of a document come out by ascending start offset
    and no two of them have the same title key. *)
Theorem document_sections_sorted_distinct (doc : ProcessedDocument) :
  StronglySorted (fun a b => start_position a ≤ start_position b)
    (SectionExtractor._extract_sections_from_document doc)
  ∧ NoDup (Notions.title_key
             <$> SectionExtractor._extract_sections_from_document doc).
Proof.
  unfold SectionExtractor._extract_sections_from_document,
    SectionExtractor.sort_by_position.
  split; [apply sort_by_key_sorted|].
  rewrite sort_stable_perm.
  apply dedup_go_keys.
Qed.

(** ** Slices and offsets *)

Section SliceFacts.

Lemma len_slice_from (n : nat) (s : string) :
  Py.len (Py.slice_from n s) = Py.len s - n.
Proof.
  revert n. induction s as [|c s IH]; intros [|n]; try done.
  simpl. apply IH.
Qed.

Lemma len_slice_to (n : nat) (s : string) :
  Py.len (Py.slice_to n s) = Nat.min n (Py.len s).
Proof.
  revert n. induction s as [|c s IH]; intros [|n]; try done.
  unfold Py.len in *. simpl. by rewrite IH.
Qed.

Lemma len_slice (a b : nat) (s : string) :
  Py.len (Py.slice a b s) = Nat.min (b - a) (Py.len s - a).
Proof. unfold Py.slice. by rewrite len_slice_to, len_slice_from. Qed.

Lemma len_app_str (a b : string) : Py.len (a +:+ b) = Py.len a + Py.len b.
Proof.
  induction a as [|x a IH]; [done|].
  unfold Py.len, String.app in *. simpl. by rewrite IH.
Qed.

Lemma slice_from_all (n : nat) (s : string) :
  Py.len s ≤ n → Py.slice_from n s = EmptyString.
Proof.
  revert n. induction s as [|c s IH]; intros [|n] Hn; try done.
  - unfold Py.len in Hn. simpl in Hn. lia.
  - simpl. apply IH. unfold Py.len in *. simpl in Hn. lia.
Qed.

Lemma is_empty_len (s : string) : Py.is_empty s = true ↔ Py.len s = 0.
Proof. by destruct s. Qed.

End SliceFacts.

(** ** Where a section ends *)

Section SpanFacts.
Import SectionExtractor.

Lemma match_at_start pat pos prev s m :
  Re.match_at pat pos prev s = Some m → Re.m_start m = pos.
Proof.
  unfold Re.match_at. destruct (Re.m_atoms _ _ _ _ _ _) as [[e g]|]; [|done].
  by intros [= <-].
Qed.

Lemma search_from_start pat pos prev s m :
  Re.search_from pat pos prev s = Some m →
  pos ≤ Re.m_start m ≤ pos + Py.len s.
Proof.
  revert pos prev. induction s as [|c s IH]; intros pos prev; simpl.
  - destruct (Re.match_at pat pos prev "") as [m'|] eqn:Hm; [|done].
    intros [= ->]. apply match_at_start in Hm. lia.
  - destruct (Re.match_at pat pos prev (String c s)) as [m'|] eqn:Hm.
    + intros [= ->]. apply match_at_start in Hm. lia.
    + intros Hs%IH. unfold Py.len in *. simpl. lia.
Qed.

Lemma first_header_start pats remaining_text m :
  first_header pats remaining_text = Some m →
  Re.m_start m ≤ Py.len remaining_text.
Proof.
  intros (skipped & pat & later & _ & _ & Hm)%first_header_some.
  apply search_from_start in Hm. lia.
Qed.

Lemma no_header_in_empty_text : first_header header_patterns "" = None.
Proof. by vm_compute. Qed.

Lemma find_section_end_le text start_pos :
  _find_section_end text start_pos ≤ Py.len text.
Proof.
  unfold _find_section_end.
  destruct (first_header header_patterns _) as [m|] eqn:Hm; [|lia].
  destruct (decide (Py.len text ≤ start_pos + 1)) as [Hshort|Hlong].
  - rewrite slice_from_all in Hm by done.
    by rewrite no_header_in_empty_text in Hm.
  - apply first_header_start in Hm. rewrite len_slice_from in Hm. lia.
Qed.

Lemma find_section_end_gt text start_pos :
  start_pos < Py.len text → start_pos < _find_section_end text start_pos.
Proof.
  intros Hstart. unfold _find_section_end, max_section_length.
  destruct (first_header header_patterns _); lia.
Qed.

End SpanFacts.

(** X3. A structural segment spans a part of the full text that is not
    empty: its end offset is past its start offset and at most the length
    of the text, also when the end is the cap of 5000 characters; its body
    is that part, stripped, so it is no longer than the span, and its page
    is the page estimated for the start offset. *)
Theorem structural_segment_span (doc : ProcessedDocument) (s : ExtractedSection) :
  s ∈ SectionExtractor._extract_from_full_text doc →
  start_position s < end_position s
  ∧ end_position s ≤ Py.len (text_content doc)
  ∧ end_position s
    = SectionExtractor._find_section_end (text_content doc) (start_position s)
  ∧ section_text s
    = Py.strip (Py.slice (start_position s) (end_position s) (text_content doc))
  ∧ Py.len (section_text s) ≤ end_position s - start_position s
  ∧ page_number s
    = SectionExtractor._estimate_page_number doc (start_position s).
Proof.
  intros (pat & m & _ & _ & Hs)%elem_of_extract_from_full_text.
  pose proof (section_of_match_body _ _ _ _ Hs) as Hbody.
  unfold SectionExtractor.section_of_match in Hs.
  destruct (Py.len _ <? 50); [done|]. injection Hs as <-. simpl in *.
  pose proof (len_strip
    (Py.slice (Re.m_start m)
       (SectionExtractor._find_section_end (text_content doc) (Re.m_start m))
       (text_content doc))) as Hstrip.
  rewrite len_slice in Hstrip.
  pose proof (find_section_end_le (text_content doc) (Re.m_start m)).
  split_and!; try done; lia.
Qed.

Lemma structural_segment_span_witness :
  ∃ s, s ∈ SectionExtractor._extract_from_full_text Examples.report
       ∧ start_position s < end_position s.
Proof.
  destruct (SectionExtractor._extract_from_full_text Examples.report)
    as [|s rest] eqn:Hsections; [by vm_compute in Hsections|].
  exists s. split; [left|].
  apply (structural_segment_span Examples.report s).
  rewrite Hsections. left.
Defined.

(** ** The page of an offset *)

Section PageFacts.
Import SectionExtractor.

Lemma walk_pages_in_span before page_info after current_pos d :
  d < Py.len (page_text_of page_info) →
  walk_pages (before ++ page_info :: after) current_pos
    (current_pos + Notions.span_start before + d)
  = Some (page_num_of page_info).
Proof.
  intros Hd. revert current_pos.
  induction before as [|p before IH]; intros current_pos; simpl.
  - unfold Notions.span_start. simpl.
    assert ((current_pos + 0 + d <? current_pos + Py.len (page_text_of page_info))
            = true) as -> by (apply Nat.ltb_lt; lia).
    done.
  - unfold Notions.span_start. csimpl. fold (Notions.span_start before).
    match goal with |- context [?a <? ?b] =>
      assert ((a <? b) = false) as -> by (apply Nat.ltb_ge; lia) end.
    rewrite <- (IH (current_pos + Py.len (page_text_of p) + 2)).
    f_equal. lia.
Qed.

Lemma walk_pages_past_end pages current_pos position :
  current_pos + Notions.span_start pages ≤ position →
  walk_pages pages current_pos position = None.
Proof.
  revert current_pos. induction pages as [|p pages IH]; intros current_pos; [done|].
  unfold Notions.span_start. csimpl. fold (Notions.span_start pages). intros Hpos.
  assert ((position <? current_pos + Py.len (page_text_of p)) = false) as ->
    by (apply Nat.ltb_ge; lia).
  apply IH. lia.
Qed.

Lemma estimate_page_number_walk doc position :
  page_contents doc ≠ [] →
  _estimate_page_number doc position
  = default (Z.of_nat (length (page_contents doc)))
      (walk_pages (page_contents doc) 0 position).
Proof.
  unfold _estimate_page_number. destruct (page_contents doc); [done|].
  intros _. by destruct (walk_pages _ _ _).
Qed.

End PageFacts.

(** X4. The page estimated for an offset that falls in the text of a page,
    the texts of the pages being laid out one after the other with two
    characters between them, is the number recorded for that page. *)
Theorem estimate_page_in_span (doc : ProcessedDocument)
    (before after : list PageInfo) (page_info : PageInfo) (d : nat) :
  page_contents doc = before ++ page_info :: after →
  d < Py.len (SectionExtractor.page_text_of page_info) →
  SectionExtractor._estimate_page_number doc (Notions.span_start before + d)
  = SectionExtractor.page_num_of page_info.
Proof.
  intros Hpages Hd.
  rewrite estimate_page_number_walk by (rewrite Hpages; by destruct before).
  rewrite Hpages.
  pose proof (walk_pages_in_span before page_info after 0 d Hd) as Hwalk.
  rewrite Nat.add_0_l in Hwalk. by rewrite Hwalk.
Qed.

Lemma estimate_page_in_span_witness :
  SectionExtractor._estimate_page_number Samples.two_page_document 15 = 2%Z.
Proof.
  apply (estimate_page_in_span Samples.two_page_document
           [ {| pg_page_number := Some 1%Z; pg_text := Some "First page." |} ]
           []
           {| pg_page_number := Some 2%Z; pg_text := Some "Second page." |} 2).
  - reflexivity.
  - vm_compute. lia.
Defined.

(** X5. An offset past the text of the last page is given the number of
    pages, whatever numbers the pages record, and 1 when there is no
    page. *)
Theorem estimate_page_past_end (doc : ProcessedDocument) (position : nat) :
  Notions.span_start (page_contents doc) ≤ position →
  SectionExtractor._estimate_page_number doc position
  = if decide (page_contents doc = []) then 1%Z
    else Z.of_nat (length (page_contents doc)).
Proof.
  intros Hpos. case_decide as Hpages.
  - unfold SectionExtractor._estimate_page_number. by rewrite Hpages.
  - rewrite estimate_page_number_walk by done.
    by rewrite walk_pages_past_end by (simpl; lia).
Qed.

Lemma estimate_page_past_end_witness :
  SectionExtractor._estimate_page_number Samples.two_page_document 40 = 2%Z.
Proof.
  apply (estimate_page_past_end Samples.two_page_document 40).
  vm_compute. lia.
Defined.

(** ** Matches of the header patterns *)

Section MatchFacts.
Import SectionExtractor.

Lemma star_inv p k pos prev s r :
  Re.star p k pos prev s = Some r →
  ∃ n prev' s', k (pos + n) prev' s' = Some r ∧ n + Py.len s' = Py.len s.
Proof.
  revert pos prev. induction s as [|c s IH]; intros pos prev; simpl.
  - intros Hk. exists 0, prev, "". by rewrite Nat.add_0_r.
  - destruct (p c).
    + destruct (Re.star p k (S pos) (Some c) s) as [r'|] eqn:Hstar.
      * intros [= <-]. apply IH in Hstar as (n & prev' & s' & Hk & Hlen).
        exists (S n), prev', s'. split.
        -- by replace (pos + S n) with (S pos + n) by lia.
        -- unfold Py.len in *. simpl. lia.
      * intros Hk. exists 0, prev, (String c s). by rewrite Nat.add_0_r.
    + intros Hk. exists 0, prev, (String c s). by rewrite Nat.add_0_r.
Qed.

Lemma one_inv p k pos prev s r :
  Re.one p k pos prev s = Some r →
  ∃ prev' s', k (S pos) prev' s' = Some r ∧ S (Py.len s') = Py.len s.
Proof.
  unfold Re.one. destruct s as [|c s]; [done|].
  destruct (p c); [|done]. intros Hk. by exists (Some c), s.
Qed.

(** A match attempt that succeeds passes the atoms in order and ends
    within the text. *)
Lemma m_atoms_run pat gopen g pos prev s r :
  Re.m_atoms pat gopen g pos prev s = Some r →
  Notions.run pat gopen g pos r ∧ r.1 ≤ pos + Py.len s.
Proof.
  revert gopen g pos prev s.
  induction pat as [|a pat IH]; intros gopen g pos prev s; simpl.
  - intros [= <-]. simpl. split; [done | lia].
  - destruct a; simpl.
    + destruct (Re.at_bol prev); [apply IH | done].
    + destruct (Re.at_eol s); [apply IH | done].
    + intros (prev' & s' & Hk & Hlen)%one_inv.
      apply IH in Hk as [Hrun Hend]. split; [done | lia].
    + intros (n & prev' & s' & Hk & Hlen)%star_inv.
      apply IH in Hk as [Hrun Hend]. split; [by exists n | lia].
    + intros (prev' & s' & Hk & Hlen)%one_inv.
      apply star_inv in Hk as (n & prev'' & s'' & Hk & Hlen').
      apply IH in Hk as [Hrun Hend]. split; [by exists n | lia].
    + apply IH.
    + apply IH.
Qed.

(** A match of a header pattern is not empty, and its group is a part of
    it that is not empty. *)
Lemma header_match_group pat pos prev s m :
  pat ∈ header_patterns →
  Re.match_at pat pos prev s = Some m →
  Re.m_start m = pos
  ∧ Re.m_end m ≤ pos + Py.len s
  ∧ ∃ a b, Re.m_group m = Some (a, b) ∧ pos ≤ a ∧ a < b ∧ b ≤ Re.m_end m.
Proof.
  intros Hpat Hm. pose proof (match_at_start _ _ _ _ _ Hm) as Hstart.
  unfold Re.match_at in Hm.
  destruct (Re.m_atoms pat pos None pos prev s) as [[e g]|] eqn:Hatoms; [|done].
  injection Hm as <-. simpl in *.
  apply m_atoms_run in Hatoms as [Hrun Hend]. simpl in Hend.
  split; [done|]. split; [done|].
  unfold header_patterns in Hpat.
  repeat (apply elem_of_cons in Hpat as [->|Hpat];
          [unfold numbered_heading, all_caps_line, named_heading in Hrun;
           simpl in Hrun;
           repeat match goal with H : ∃ _, _ |- _ => destruct H as [? H] end;
           injection Hrun as -> ->; eexists _, _; split; [done|lia] |]).
  by apply elem_of_nil in Hpat.
Qed.

Lemma finditer_from_inv pat skip pos prev s m :
  m ∈ Re.finditer_from pat skip pos prev s →
  ∃ pos' prev' s',
    Re.match_at pat pos' prev' s' = Some m
    ∧ pos ≤ pos' ∧ pos' + Py.len s' = pos + Py.len s.
Proof.
  revert skip pos prev. induction s as [|c s IH]; intros skip pos prev.
  - destruct skip as [|skip]; simpl; [|by intros ?%elem_of_nil].
    destruct (Re.match_at pat pos prev "") as [m'|] eqn:Hm; simpl;
      [|by intros ?%elem_of_nil].
    intros ->%list_elem_of_singleton. by exists pos, prev, "".
  - assert (∀ skip', m ∈ Re.finditer_from pat skip' (S pos) (Some c) s →
              ∃ pos' prev' s',
                Re.match_at pat pos' prev' s' = Some m
                ∧ pos ≤ pos' ∧ pos' + Py.len s' = pos + Py.len (String c s))
      as Hrest.
    { intros skip' (pos' & prev' & s' & Hm & Hpos & Hlen)%IH.
      exists pos', prev', s'. split; [done|].
      unfold Py.len in *. simpl. lia. }
    destruct skip as [|skip]; simpl; [|apply Hrest].
    destruct (Re.match_at pat pos prev (String c s)) as [m'|] eqn:Hm;
      [|apply Hrest].
    intros [->|Hin]%elem_of_cons; [|by eapply Hrest].
    by exists pos, prev, (String c s).
Qed.

(** The title of a header match is a part of the text that is not empty. *)
Lemma header_title_not_empty pat text m :
  pat ∈ header_patterns →
  m ∈ Re.finditer pat text →
  Re.has_groups pat = true ∧ 0 < Py.len (Re.group1 text m).
Proof.
  intros Hpat (pos & prev & s & Hm & _ & Hlen)%finditer_from_inv.
  split.
  - unfold header_patterns in Hpat.
    repeat (apply elem_of_cons in Hpat as [->|Hpat]; [done|]).
    by apply elem_of_nil in Hpat.
  - apply (header_match_group _ _ _ _ _ Hpat) in Hm
      as (_ & Hend & a & b & Hg & Ha & Hab & Hb).
    unfold Re.group1. rewrite Hg, len_slice. simpl in Hlen. lia.
Qed.

End MatchFacts.

(** X6. Every header the structural pass finds is a part of the full
    text that is not empty, and the title taken from it, the group of the
    pattern, is a part of the header that is not empty. *)
Theorem header_match_in_text (doc : ProcessedDocument) (pat : Re.pattern)
    (m : Re.rmatch) :
  pat ∈ SectionExtractor.header_patterns →
  m ∈ Re.finditer pat (text_content doc) →
  Re.m_start m < Re.m_end m
  ∧ Re.m_end m ≤ Py.len (text_content doc)
  ∧ ∃ a b, Re.m_group m = Some (a, b)
           ∧ Re.m_start m ≤ a ∧ a < b ∧ b ≤ Re.m_end m
           ∧ Py.len (Re.group1 (text_content doc) m) = b - a.
Proof.
  intros Hpat (pos & prev & s & Hm & _ & Hlen)%finditer_from_inv.
  apply (header_match_group _ _ _ _ _ Hpat) in Hm
    as (Hstart & Hend & a & b & Hg & Ha & Hab & Hb).
  simpl in Hlen. split_and!; [lia..|].
  exists a, b. split_and!; [done|lia..|].
  unfold Re.group1. rewrite Hg, len_slice. lia.
Qed.

Lemma header_match_in_text_witness :
  ∃ m, m ∈ Re.finditer SectionExtractor.numbered_heading
             (text_content Examples.report)
       ∧ Re.m_start m < Re.m_end m.
Proof.
  destruct (Re.finditer SectionExtractor.numbered_heading
              (text_content Examples.report)) as [|m rest] eqn:Hfind;
    [by vm_compute in Hfind|].
  exists m. split; [left|].
  apply (header_match_in_text Examples.report SectionExtractor.numbered_heading m).
  - left.
  - rewrite Hfind. left.
Defined.

Section TitleFacts.
Import SectionExtractor.

Lemma find_title_length lines title :
  find_title lines = Some title → 0 < Py.len title < 100.
Proof.
  induction lines as [|line lines IH]; simpl; [done|].
  destruct (0 <? Py.len (Py.strip line)) eqn:Hpos; simpl; [|done].
  destruct (Py.len (Py.strip line) <? 100) eqn:Hshort; [|done].
  intros [= <-]. apply Nat.ltb_lt in Hpos, Hshort. lia.
Qed.

Lemma section_of_page_title doc page_info s :
  section_of_page doc page_info = Some s → 0 < Py.len (section_title s).
Proof.
  unfold section_of_page. destruct (200 <? _); [|done].
  intros [= <-]. simpl.
  destruct (find_title _) as [title|] eqn:Htitle.
  - apply find_title_length in Htitle. lia.
  - rewrite len_app_str. unfold Py.len at 1. simpl. lia.
Qed.

Lemma section_of_match_title doc pat m s :
  pat ∈ header_patterns →
  m ∈ Re.finditer pat (text_content doc) →
  section_of_match doc pat m = Some s → 0 < Py.len (section_title s).
Proof.
  intros Hpat Hm. unfold section_of_match.
  destruct (Py.len _ <? 50); [done|]. intros [= <-]. simpl.
  destruct (header_title_not_empty pat (text_content doc) m Hpat Hm)
    as [-> Htitle].
  done.
Qed.

End TitleFacts.

(** X7. Every segment the segmenter emits has a title that is not
    empty: a structural segment the group of its header, a page segment a
    line of the page or the words made from the page number. *)
Theorem segment_title_not_empty (processed_docs : list ProcessedDocument)
    (s : ExtractedSection) :
  s ∈ SectionExtractor.extract_sections processed_docs →
  0 < Py.len (section_title s).
Proof.
  unfold SectionExtractor.extract_sections.
  rewrite list_elem_of_In, in_flat_map.
  intros (doc & _ & Hs%list_elem_of_In).
  apply elem_of_extract_sections_from_document in Hs as [Hs|Hs].
  - apply elem_of_extract_from_full_text in Hs as (pat & m & Hpat & Hm & Hs).
    by eapply section_of_match_title.
  - apply elem_of_extract_from_pages in Hs as (page_info & _ & Hs).
    by eapply section_of_page_title.
Qed.

Lemma segment_title_not_empty_witness :
  ∃ s, s ∈ SectionExtractor.extract_sections [Examples.paper]
       ∧ 0 < Py.len (section_title s).
Proof.
  eexists. split.
  - vm_compute. apply list_elem_of_here.
  - apply (segment_title_not_empty [Examples.paper]).
    vm_compute. apply list_elem_of_here.
Defined.

Section ClassifyFacts.
Import SectionExtractor.

Lemma classify_in_value mapping title_lower :
  classify_in mapping title_lower = "content"
  ∨ classify_in mapping title_lower ∈ mapping.*2.
Proof.
  induction mapping as [|[key ty] mapping IH]; simpl; [by left|].
  destruct (Py.str_in key title_lower).
  - right. left.
  - destruct IH as [IH|IH]; [by left | right; by right].
Qed.

Lemma classify_in_content mapping title_lower :
  "content" ∉ mapping.*2 →
  classify_in mapping title_lower = "content"
  ↔ Forall (fun entry => Py.str_in entry.1 title_lower = false) mapping.
Proof.
  induction mapping as [|[key ty] mapping IH]; csimpl; intros Hvalues.
  - split; [constructor | done].
  - apply not_elem_of_cons in Hvalues as [Hty Hvalues].
    rewrite Forall_cons. simpl. destruct (Py.str_in key title_lower).
    + split; [by intros -> | by intros [? _]].
    + rewrite (IH Hvalues). tauto.
Qed.

End ClassifyFacts.

(** X8. The type of a section is one of the nine known types, whatever
    the title; it does not depend on the case of the title, and it is
    "content" exactly when the case-folded title holds none of the words
    of the table. *)
Theorem classify_section_type_range (title : string) :
  SectionExtractor._classify_section_type title ∈ Notions.section_types
  ∧ SectionExtractor._classify_section_type (Py.lower title)
    = SectionExtractor._classify_section_type title
  ∧ (SectionExtractor._classify_section_type title = "content"
     ↔ Forall (fun entry => Py.str_in entry.1 (Py.lower title) = false)
         SectionExtractor.type_mapping).
Proof.
  unfold SectionExtractor._classify_section_type. split_and!.
  - destruct (classify_in_value SectionExtractor.type_mapping (Py.lower title))
      as [->|Hvalue].
    + unfold Notions.section_types. do 8 right. left.
    + revert Hvalue.
      generalize (SectionExtractor.classify_in SectionExtractor.type_mapping
                    (Py.lower title)) as ty.
      intros ty Hvalue.
      unfold SectionExtractor.type_mapping in Hvalue. csimpl in Hvalue.
      unfold Notions.section_types.
      repeat (apply elem_of_cons in Hvalue as [->|Hvalue];
              [solve [repeat (first [left | right])]|]).
      by apply elem_of_nil in Hvalue.
  - by rewrite lower_lower.
  - apply classify_in_content. unfold SectionExtractor.type_mapping. csimpl.
    by repeat (apply not_elem_of_cons; split; [done|]); apply not_elem_of_nil.
Qed.

Section EmptyFacts.
Import SectionExtractor.

Lemma no_header_match_in_empty_text :
  Forall (fun pat => Re.finditer pat "" = []) header_patterns.
Proof. unfold header_patterns. by repeat constructor. Qed.

Lemma extract_from_empty_text doc :
  text_content doc = "" → _extract_from_full_text doc = [].
Proof.
  intros Htext. unfold _extract_from_full_text. rewrite Htext.
  pose proof no_header_match_in_empty_text as Hnone.
  induction Hnone as [|pat pats Hpat _ IH]; [done|].
  simpl. by rewrite Hpat, IH.
Qed.

Lemma extract_from_short_pages doc :
  Forall (fun page_info => Py.len (Py.strip (page_text_of page_info)) ≤ 200)
    (page_contents doc) →
  _extract_from_pages doc = [].
Proof.
  unfold _extract_from_pages. intros Hshort.
  induction Hshort as [|page_info pages Hpage _ IH]; [done|].
  csimpl. unfold section_of_page at 1.
  assert ((200 <? Py.len (Py.strip (page_text_of page_info))) = false) as ->
    by (apply Nat.ltb_ge; lia).
  done.
Qed.

End EmptyFacts.

(** X9. A document without text none of whose pages has more than 200
    characters once stripped, also one without pages, gives no segment,
    and no error. *)
Theorem empty_document_no_segments (doc : ProcessedDocument) :
  text_content doc = "" →
  Forall (fun page_info =>
            Py.len (Py.strip (SectionExtractor.page_text_of page_info)) ≤ 200)
    (page_contents doc) →
  SectionExtractor._extract_sections_from_document doc = []
  ∧ SectionExtractor.extract_sections [doc] = [].
Proof.
  intros Htext Hpages.
  assert (SectionExtractor._extract_sections_from_document doc = []) as Hnone.
  { unfold SectionExtractor._extract_sections_from_document.
    by rewrite extract_from_empty_text, extract_from_short_pages. }
  split; [done|]. unfold SectionExtractor.extract_sections. simpl.
  by rewrite Hnone.
Qed.

Lemma empty_document_no_segments_witness :
  SectionExtractor.extract_sections [Examples.blank] = [].
Proof.
  apply (empty_document_no_segments Examples.blank).
  - reflexivity.
  - constructor; [vm_compute; lia | constructor].
Defined.

(** ** More on the scorer and the ranker *)

Section RankedFacts.
Import RelevanceRanker.

Lemma rank_sections_ok self sections persona_analysis out :
  rank_sections self sections persona_analysis = Ok out →
  out = assign_ranks 1 (sort_by_score (score_all self sections persona_analysis)).
Proof.
  unfold rank_sections, rank_scored.
  destruct (assign_ranks 1 _); [done|]. by intros [= <-].
Qed.

Lemma score_all_length self sections persona_analysis :
  length (score_all self sections persona_analysis) = length sections.
Proof.
  rewrite <- (score_all_sections self sections persona_analysis) at 2.
  by rewrite length_fmap.
Qed.

Lemma rank_sections_length self sections persona_analysis out :
  rank_sections self sections persona_analysis = Ok out →
  length out = length sections.
Proof.
  intros ->%rank_sections_ok. unfold sort_by_score.
  by rewrite assign_ranks_length, sort_stable_length, score_all_length.
Qed.

Lemma rank_sections_elem self sections persona_analysis out r :
  rank_sections self sections persona_analysis = Ok out → r ∈ out →
  section r ∈ sections
  ∧ _calculate_relevance_score self (section r) persona_analysis
    = Ok (relevance_score r, ranking_factors r).
Proof.
  intros ->%rank_sections_ok (r0 & j & Hr0 & ->)%elem_of_assign_ranks.
  unfold sort_by_score in Hr0. rewrite elem_of_sort_stable in Hr0.
  split.
  - rewrite <- (score_all_sections self sections persona_analysis).
    simpl. by apply list_elem_of_fmap_2.
  - pose proof (score_all_scored self sections persona_analysis) as Hscored.
    rewrite Forall_forall in Hscored. simpl. by apply Hscored.
Qed.

End RankedFacts.

(** X10. In every ranked section the factor breakdown holds the six
    factors under their names, in the order they are computed; each
    factor is between 0 and 1, and the section type factor is at most
    0.9. *)
Theorem ranked_factors_in_unit_interval (self : RelevanceRanker)
    (sections : list ExtractedSection) (persona_analysis : PersonaAnalysis)
    (out : list RankedSection) (r : RankedSection) :
  RelevanceRanker.rank_sections self sections persona_analysis = Ok out →
  r ∈ out →
  (ranking_factors r).*1
  = [ "keyword_match"; "semantic_similarity"; "section_type_importance";
      "content_length"; "position_bias"; "title_relevance" ]
  ∧ (∀ factor v, (factor, v) ∈ ranking_factors r → (0 <= v <= 1)%Q)
  ∧ (∀ v, ("section_type_importance", v) ∈ ranking_factors r → (v <= 0.9)%Q).
Proof.
  intros Hout Hr.
  destruct (rank_sections_elem _ _ _ _ _ Hout Hr) as [_ Hscore].
  rewrite relevance_score_value in Hscore. injection Hscore as _ Hfactors.
  rewrite <- Hfactors.
  pose proof (keyword_match_bounds (section r) persona_analysis).
  pose proof (semantic_similarity_bounds self (section r) persona_analysis).
  pose proof (section_type_bounds (section r) persona_analysis) as [? ?].
  pose proof (content_length_bounds (section r)).
  pose proof (position_bias_bounds (section r)).
  pose proof (title_relevance_bounds (section r) persona_analysis).
  split_and!.
  - done.
  - intros factor v Hv.
    repeat (apply elem_of_cons in Hv as [[= _ ->]|Hv]; [try done|]).
    + split; [done|]. by apply Qle_trans with 0.9%Q.
    + by apply elem_of_nil in Hv.
  - intros v Hv.
    repeat (apply elem_of_cons in Hv as [Heq|Hv]; [by simplify_eq|]).
    by apply elem_of_nil in Hv.
Qed.

Lemma ranked_factors_in_unit_interval_witness :
  ∃ out r,
    RelevanceRanker.rank_sections Examples.ranker
      (SectionExtractor.extract_sections [Examples.report]) Examples.investor
    = Ok out
    ∧ r ∈ out
    ∧ ∀ factor v, (factor, v) ∈ ranking_factors r → (0 <= v <= 1)%Q.
Proof.
  eexists _, _. split; [vm_compute; reflexivity|].
  split; [apply list_elem_of_here|].
  eapply proj1, proj2,
    (ranked_factors_in_unit_interval Examples.ranker
       (SectionExtractor.extract_sections [Examples.report]) Examples.investor).
  - vm_compute. reflexivity.
  - apply list_elem_of_here.
Defined.

(** X11. The position factor does not grow with the page: a section on a
    later page never gets more than one on an earlier page. *)
Theorem position_bias_monotone (s1 s2 : ExtractedSection) :
  (page_number s1 ≤ page_number s2)%Z →
  (RelevanceRanker._calculate_position_bias_score s2
   <= RelevanceRanker._calculate_position_bias_score s1)%Q.
Proof.
  intros Hpage. unfold RelevanceRanker._calculate_position_bias_score.
  repeat match goal with
         | |- context [(?a <=? ?b)%Z] => destruct (Z.leb_spec a b)
         end; try lia; by vm_compute.
Qed.

Lemma position_bias_monotone_witness :
  (RelevanceRanker._calculate_position_bias_score Examples.revenue_section
   <= RelevanceRanker._calculate_position_bias_score (Examples.guide_section ""))%Q.
Proof.
  apply (position_bias_monotone (Examples.guide_section "")
           Examples.revenue_section).
  vm_compute. discriminate.
Defined.

(** ** More on the lexical similarity *)

Section OverlapFacts.
Import ModelManager.
Local Open Scope Q_scope.

Lemma div_nat_same (n : nat) : (0 < n)%nat → div_nat n n == 1.
Proof.
  intros Hn. unfold div_nat. apply Qmult_inv_r.
  intros Hzero. assert (0 < inject_Z (Z.of_nat n)) as Hpos.
  { rewrite <- (Zlt_Qlt 0). lia. }
  rewrite Hzero in Hpos. by apply Qlt_irrefl in Hpos.
Qed.

Lemma words_comm (X Y : gset string) : X ∩ Y = Y ∩ X ∧ X ∪ Y = Y ∪ X.
Proof. split; [apply intersection_comm_L | apply union_comm_L]. Qed.

Lemma words_idemp (X : gset string) : X ∩ X = X ∧ X ∪ X = X.
Proof. split; [apply intersection_idemp_L | apply union_idemp_L]. Qed.

End OverlapFacts.

(** X12. The lexical similarity is symmetric and does not depend on the
    case of the texts; a text that holds a word is at similarity 1 to
    itself, and a text without words at 0. *)
Theorem fallback_similarity_symmetric (text1 text2 : string) :
  ModelManager._fallback_similarity_score text1 text2
  = ModelManager._fallback_similarity_score text2 text1
  ∧ ModelManager._fallback_similarity_score (Py.lower text1) text2
    = ModelManager._fallback_similarity_score text1 text2
  ∧ (ModelManager._fallback_similarity_score text1 text1
     == if decide (Py.split (Py.lower text1) = []) then 0 else 1)%Q.
Proof.
  split_and!.
  - unfold ModelManager._fallback_similarity_score.
    destruct (words_comm (Py.set_of (Py.split (Py.lower text1)))
                (Py.set_of (Py.split (Py.lower text2)))) as [-> ->].
    repeat case_decide; try done; tauto.
  - unfold ModelManager._fallback_similarity_score. by rewrite lower_lower.
  - unfold ModelManager._fallback_similarity_score, Py.set_of.
    destruct (words_idemp (list_to_set (Py.split (Py.lower text1))))
      as [-> ->].
    destruct (Py.split (Py.lower text1)) as [|w ws] eqn:Hwords.
    + rewrite decide_True by (by left). by rewrite decide_True.
    + rewrite (decide_False (P := (w :: ws = []))) by done.
      assert (list_to_set (w :: ws) ≠ (∅ : gset string)) as Hne.
      { intros Hempty. assert (w ∈ (∅ : gset string)) as Hw; [|done].
        rewrite <- Hempty. apply elem_of_list_to_set. left. }
      rewrite decide_False by tauto.
      assert (0 < size (list_to_set (w :: ws) : gset string)) as Hpos.
      { pose proof (union_size_pos _ (list_to_set (w :: ws)) Hne) as Hpos.
        by destruct (words_idemp (list_to_set (w :: ws))) as [_ <-]. }
      pose proof Hpos as Hpos'. apply Nat.ltb_lt in Hpos' as ->.
      by apply div_nat_same.
Qed.

(** The three word-overlap computations of the code agree: the
    relevance of a text to a context, whatever the state of the manager,
    and the last-resort overlap of the ranker are the lexical similarity
    of the texts they compare. *)
Theorem word_overlap_fallbacks_agree (self : ModelManager)
    (text context : string) (section : ExtractedSection)
    (persona_analysis : PersonaAnalysis) :
  TextRelevance.classify_text_relevance self text context
  = ModelManager._fallback_similarity_score text context
  ∧ TextRelevance._fallback_relevance_score text context
    = ModelManager._fallback_similarity_score text context
  ∧ RelevanceRanker._simple_overlap_score section persona_analysis
    = ModelManager._fallback_similarity_score
        (persona persona_analysis +:+ " " +:+ job_to_be_done persona_analysis)
        (section_title section +:+ " " +:+ Py.slice_to 300 (section_text section)).
Proof. by split_and!. Qed.

(** ** The pipeline *)

(** X13. The pipeline raises exactly when the documents give no segment
    at all; otherwise it returns as many ranked sections as there are
    segments. *)
Theorem analyze_fails_only_without_segments (self : RelevanceRanker)
    (processed_docs : list ProcessedDocument) (persona job_to_be_done : string) :
  (SectionExtractor.extract_sections processed_docs = [] →
   DocumentAnalyst.analyze self processed_docs persona job_to_be_done
   = Err IndexError)
  ∧ (SectionExtractor.extract_sections processed_docs ≠ [] →
     ∃ out,
       DocumentAnalyst.analyze self processed_docs persona job_to_be_done = Ok out
       ∧ length out
         = length (SectionExtractor.extract_sections processed_docs)).
Proof.
  unfold DocumentAnalyst.analyze. split.
  - by intros ->.
  - intros Hne.
    destruct (RelevanceRanker.rank_sections self _ _) as [out|e] eqn:Hrank.
    + exists out. split; [done|]. by eapply rank_sections_length.
    + exfalso.
      unfold RelevanceRanker.rank_sections, RelevanceRanker.rank_scored in Hrank.
      destruct (RelevanceRanker.assign_ranks 1 _) as [|r rest] eqn:Hranked;
        [|done].
      apply (f_equal length) in Hranked.
      unfold RelevanceRanker.sort_by_score in Hranked.
      rewrite assign_ranks_length, sort_stable_length in Hranked.
      rewrite score_all_length in Hranked.
      by destruct (SectionExtractor.extract_sections processed_docs).
Qed.

Lemma analyze_fails_only_without_segments_witness :
  ∃ out,
    DocumentAnalyst.analyze Examples.ranker [Examples.report]
      "Travel planner" "Plan a trip" = Ok out
    ∧ length out = length (SectionExtractor.extract_sections [Examples.report]).
Proof.
  apply (proj2 (analyze_fails_only_without_segments Examples.ranker
                  [Examples.report] "Travel planner" "Plan a trip")).
  by vm_compute.
Defined.

(** ** More on the persona model *)

Section InterestFacts.
Import PersonaAnalyzer.

Lemma interest_keywords_distinct : NoDup interest_keywords.
Proof. apply (bool_decide_unpack _). by vm_compute. Qed.

Lemma unique_go_distinct seen words :
  NoDup (unique_go seen words) ∧ Forall (fun w => w ∉ seen) (unique_go seen words).
Proof.
  revert seen. induction words as [|w words IH]; intros seen; simpl.
  - split; constructor.
  - case_decide as Hseen; [apply IH|].
    destruct (IH ({[w]} ∪ seen)) as [Hnd Hout]. split.
    + constructor; [|done]. intros Hw.
      rewrite Forall_forall in Hout. apply (Hout w Hw).
      by apply elem_of_union_l, elem_of_singleton.
    + constructor; [done|].
      eapply Forall_impl; [exact Hout|]. simpl.
      intros w' Hw' Hin. apply Hw'. by apply elem_of_union_r.
Qed.

Lemma unique_go_sublist seen words : unique_go seen words `sublist_of` words.
Proof.
  revert seen. induction words as [|w words IH]; intros seen; simpl.
  - constructor.
  - case_decide; [apply sublist_cons | apply sublist_skip]; apply IH.
Qed.

Lemma no_space_lstrip_punct (s : string) :
  Spec.has_space s = false → Spec.has_space (lstrip_punct s) = false.
Proof.
  induction s as [|c s IH]; simpl; [done|].
  intros [Hc Hs]%orb_false_elim.
  destruct (is_punct c); [by apply IH|]. simpl. by rewrite Hc, Hs.
Qed.

Lemma no_space_rstrip_punct (s : string) :
  Spec.has_space s = false → Spec.has_space (rstrip_punct s) = false.
Proof.
  induction s as [|c s IH]; simpl; [done|].
  intros [Hc Hs]%orb_false_elim.
  destruct (is_punct c && Py.is_empty (rstrip_punct s)); [done|].
  simpl. by rewrite Hc, IH.
Qed.

Lemma no_space_strip_punct (s : string) :
  Spec.has_space s = false → Spec.has_space (strip_punct s) = false.
Proof.
  intros Hs. by apply no_space_rstrip_punct, no_space_lstrip_punct.
Qed.

End InterestFacts.

(** X14. The interests taken from a job description are words of the
    fixed vocabulary, in its order and without repetition, at most 5, and
    each occurs in the case-folded description. *)
Theorem key_interests_from_vocabulary (job_to_be_done : string) :
  PersonaAnalyzer._extract_key_interests job_to_be_done
    `sublist_of` PersonaAnalyzer.interest_keywords
  ∧ NoDup (PersonaAnalyzer._extract_key_interests job_to_be_done)
  ∧ length (PersonaAnalyzer._extract_key_interests job_to_be_done) ≤ 5
  ∧ ∀ kw, kw ∈ PersonaAnalyzer._extract_key_interests job_to_be_done →
          Py.str_in kw (Py.lower job_to_be_done) = true.
Proof.
  unfold PersonaAnalyzer._extract_key_interests.
  assert (take 5 (filter (fun kw => Is_true (Py.str_in kw (Py.lower job_to_be_done)))
                    PersonaAnalyzer.interest_keywords)
            `sublist_of` PersonaAnalyzer.interest_keywords) as Hsub.
  { etrans; [apply sublist_take | apply sublist_filter]. }
  split_and!.
  - done.
  - eapply sublist_NoDup; [apply interest_keywords_distinct | exact Hsub].
  - rewrite length_take. lia.
  - intros kw Hkw. apply (elem_of_sublist _ _ _ Hkw) in Hsub as _.
    eapply elem_of_sublist in Hkw; [|apply sublist_take].
    apply list_elem_of_filter in Hkw as [Hkw _]. by apply Is_true_true.
Qed.

Lemma key_interests_from_vocabulary_witness :
  Py.str_in "revenue" (Py.lower "Analyze the revenue trend") = true.
Proof.
  apply (proj2 (proj2 (proj2
           (key_interests_from_vocabulary "Analyze the revenue trend")))).
  vm_compute. apply list_elem_of_here.
Defined.

(** X15. The priority keywords of a persona and a job are pairwise
    different and at most 10; each is a word of the case-folded text
    "persona job", longer than 3 characters and not a stop word, with
    the punctuation at its ends removed, and holds no white space. *)
Theorem priority_keywords_distinct (persona job_to_be_done : string) :
  NoDup (PersonaAnalyzer._extract_priority_keywords persona job_to_be_done)
  ∧ length (PersonaAnalyzer._extract_priority_keywords persona job_to_be_done) ≤ 10
  ∧ ∀ kw, kw ∈ PersonaAnalyzer._extract_priority_keywords persona job_to_be_done →
      Spec.has_space kw = false
      ∧ ∃ word,
          word ∈ Py.split (Py.lower (persona +:+ " " +:+ job_to_be_done))
          ∧ 3 < Py.len word
          ∧ (word ∉ PersonaAnalyzer.stop_words)
          ∧ kw = PersonaAnalyzer.strip_punct word.
Proof.
  unfold PersonaAnalyzer._extract_priority_keywords. split_and!.
  - eapply sublist_NoDup; [apply unique_go_distinct | apply sublist_take].
  - rewrite length_take. lia.
  - intros kw Hkw.
    eapply elem_of_sublist in Hkw; [|apply sublist_take].
    eapply elem_of_sublist in Hkw; [|apply unique_go_sublist].
    apply list_elem_of_fmap in Hkw as (word & -> & Hword).
    apply list_elem_of_filter in Hword as [[Hlen Hstop] Hword].
    split; [|by exists word].
    apply no_space_strip_punct.
    apply split_words in Hword. unfold Spec.is_word in Hword.
    apply andb_true_iff in Hword as [_ Hsp]. by apply negb_true_iff in Hsp.
Qed.

Lemma priority_keywords_distinct_witness :
  Spec.has_space "investment" = false
  ∧ ∃ word,
      word ∈ Py.split (Py.lower ("Investment analyst" +:+ " "
                                 +:+ "Analyze the revenue trend"))
      ∧ 3 < Py.len word
      ∧ (word ∉ PersonaAnalyzer.stop_words)
      ∧ "investment" = PersonaAnalyzer.strip_punct word.
Proof.
  apply (proj2 (proj2 (priority_keywords_distinct "Investment analyst"
                         "Analyze the revenue trend"))).
  vm_compute. apply list_elem_of_here.
Defined.

Section EnhancedFacts.
Import PersonaEnhanced.

Lemma enhance_areas_extends model_manager persona pool areas :
  ∃ added,
    enhance_areas model_manager persona pool areas = Ok (areas ++ added)
    ∧ NoDup added
    ∧ Forall (fun term =>
                term ∈ pool ∧ (term ∉ areas)
                ∧ (0.4 < ModelManager._fallback_similarity_score persona term)%Q)
        added.
Proof.
  revert areas. induction pool as [|term pool IH]; intros areas; simpl.
  - exists []. rewrite app_nil_r. by repeat constructor.
  - case_decide as Hin.
    + destruct (IH areas) as (added & -> & Hnd & Hall).
      exists added. split_and!; [done..|].
      eapply Forall_impl; [exact Hall|]. simpl.
      intros t (? & ? & ?). split_and!; [by right | done..].
    + destruct (RelevanceRanker.Qlt_bool 0.4
                  (ModelManager._fallback_similarity_score persona term))
        eqn:Hsim.
      * destruct (IH (areas ++ [term])) as (added & -> & Hnd & Hall).
        exists (term :: added). rewrite <- app_assoc. split_and!; [done| |].
        -- constructor; [|done]. intros Hterm.
           rewrite Forall_forall in Hall.
           destruct (Hall term Hterm) as (_ & Hnot & _).
           apply Hnot, elem_of_app. right. left.
        -- constructor.
           ++ split_and!; [left | done | by apply Qlt_bool_true].
           ++ eapply Forall_impl; [exact Hall|]. simpl.
              intros t (? & Hnot & ?). split_and!; [by right | | done].
              intros Ht. apply Hnot, elem_of_app. by left.
      * destruct (IH areas) as (added & -> & Hnd & Hall).
        exists added. split_and!; [done..|].
        eapply Forall_impl; [exact Hall|]. simpl.
        intros t (? & ? & ?). split_and!; [by right | done..].
Qed.

End EnhancedFacts.

(** X16. The enhanced extraction of expertise areas keeps the basic
    areas, in their order, at its head, and adds terms of its pool after
    them: each added term is not among the basic ones, is added once, and
    is at a lexical similarity above 0.4 to the persona; the result has
    at most 7 entries. *)
Theorem expertise_enhanced_extends_basic (model_manager : ModelManager)
    (persona : string) :
  ∃ added,
    PersonaEnhanced._extract_expertise_areas_enhanced model_manager persona
    = PersonaAnalyzer._extract_expertise_areas persona ++ added
    ∧ length (PersonaEnhanced._extract_expertise_areas_enhanced model_manager
                persona) ≤ 7
    ∧ NoDup added
    ∧ Forall (fun term =>
                term ∈ PersonaEnhanced.expertise_pool
                ∧ (term ∉ PersonaAnalyzer._extract_expertise_areas persona)
                ∧ (0.4 < ModelManager._fallback_similarity_score persona term)%Q)
        added.
Proof.
  unfold PersonaEnhanced._extract_expertise_areas_enhanced.
  destruct (enhance_areas_extends model_manager persona
              PersonaEnhanced.expertise_pool
              (PersonaAnalyzer._extract_expertise_areas persona))
    as (added & -> & Hnd & Hall).
  assert (length (PersonaAnalyzer._extract_expertise_areas persona) ≤ 5) as Hlen.
  { unfold PersonaAnalyzer._extract_expertise_areas. rewrite length_take. lia. }
  exists (take (7 - length (PersonaAnalyzer._extract_expertise_areas persona))
            added).
  split_and!.
  - rewrite take_app. f_equal. apply take_ge. lia.
  - rewrite length_take. lia.
  - eapply sublist_NoDup; [done | apply sublist_take].
  - by apply Forall_take.
Qed.

(** ** The output *)

Section RefinedFacts.
Import OutputFormatter.

Lemma build_refined_length sentences refined_text max_length :
  Py.len refined_text ≤ max_length →
  Py.len (build_refined sentences refined_text max_length) ≤ max_length.
Proof.
  revert refined_text.
  induction sentences as [|sentence rest IH]; intros refined_text Hlen; simpl;
    [done|].
  destruct (Py.len refined_text + Py.len sentence + 1 <=? max_length) eqn:Hfits;
    [|done].
  apply Nat.leb_le in Hfits. apply IH.
  rewrite !len_app_str. unfold Py.len at 3. simpl. lia.
Qed.

Lemma split_sentences_unbroken text current_sentence sentences :
  Notions.has_sentence_end text = false →
  split_sentences text current_sentence sentences
  = (sentences, current_sentence +:+ text).
Proof.
  revert current_sentence. induction text as [|c text IH];
    intros current_sentence; simpl.
  - intros _. by rewrite app_nil_r_str.
  - intros [Hc Htext]%orb_false_elim. rewrite Hc. simpl.
    rewrite IH by done. by rewrite app_assoc_str.
Qed.

End RefinedFacts.

(** X17. The refined text of a section never exceeds the length limit,
    whatever the text. *)
Theorem refined_text_within_limit (original_text : string) (max_length : nat) :
  Py.len (OutputFormatter._generate_refined_text original_text max_length)
  ≤ max_length.
Proof.
  unfold OutputFormatter._generate_refined_text.
  destruct (Py.len original_text <=? max_length) eqn:Hshort.
  - apply Nat.leb_le in Hshort.
    pose proof (len_strip original_text). lia.
  - destruct (OutputFormatter.split_sentences original_text "" [])
      as [sentences current_sentence].
    etrans; [apply len_strip|].
    apply build_refined_length. unfold Py.len. simpl. lia.
Qed.

(** X18. A text longer than the limit in which no sentence ends, and
    whose stripped length reaches the limit, is refined to the empty
    text: the only sentence does not fit and nothing is kept. *)
Theorem refined_text_of_unbroken_text (original_text : string) (max_length : nat) :
  max_length < Py.len original_text →
  max_length ≤ Py.len (Py.strip original_text) →
  Notions.has_sentence_end original_text = false →
  OutputFormatter._generate_refined_text original_text max_length = "".
Proof.
  intros Hlong Hstrip Hend. unfold OutputFormatter._generate_refined_text.
  assert ((Py.len original_text <=? max_length) = false) as ->
    by (apply Nat.leb_gt; lia).
  rewrite split_sentences_unbroken by done.
  change ("" +:+ original_text) with original_text.
  destruct (Py.is_empty (Py.strip original_text)) eqn:Hempty; [done|].
  simpl.
  match goal with |- context [?a <=? max_length] =>
    assert ((a <=? max_length) = false) as ->
      by (apply Nat.leb_gt; unfold Py.len; simpl; unfold Py.len in Hstrip; lia)
  end.
  done.
Qed.

Lemma refined_text_of_unbroken_text_witness :
  OutputFormatter._generate_refined_text Samples.unbroken 1000 = "".
Proof.
  apply (refined_text_of_unbroken_text Samples.unbroken 1000).
  - vm_compute. lia.
  - vm_compute. lia.
  - by vm_compute.
Defined.

(** X19. The entries made from a ranking are those of its first five
    sections: their importance ranks are 1, 2, ... up to 5 or the number
    of segments, the analysis list has as many entries, and no refined
    text in it is longer than 1000 characters. *)
Theorem output_keeps_top_five (self : RelevanceRanker)
    (sections : list ExtractedSection) (persona_analysis : PersonaAnalysis)
    (out : list RankedSection) :
  RelevanceRanker.rank_sections self sections persona_analysis = Ok out →
  ee_importance_rank <$> OutputFormatter._generate_extracted_sections out
  = seq 1 (Nat.min 5 (length sections))
  ∧ length (OutputFormatter._generate_subsection_analysis out)
    = Nat.min 5 (length sections)
  ∧ Forall (fun entry => Py.len (se_refined_text entry) ≤ 1000)
      (OutputFormatter._generate_subsection_analysis out).
Proof.
  intros Hout. pose proof (rank_sections_length _ _ _ _ Hout) as Hlen.
  apply rank_sections_ok in Hout.
  unfold OutputFormatter._generate_extracted_sections,
    OutputFormatter._generate_subsection_analysis.
  split_and!.
  - rewrite <- list_fmap_compose.
    change (ee_importance_rank ∘ _) with importance_rank.
    rewrite fmap_take, Hout, assign_ranks_ranks, take_seq.
    f_equal. unfold RelevanceRanker.sort_by_score.
    by rewrite sort_stable_length, score_all_length.
  - by rewrite length_fmap, length_take, Hlen.
  - apply Forall_fmap, Forall_forall. intros r _. simpl.
    apply refined_text_within_limit.
Qed.

Lemma output_keeps_top_five_witness :
  ∃ out,
    RelevanceRanker.rank_sections Examples.ranker
      (SectionExtractor.extract_sections [Examples.report]) Examples.investor
    = Ok out
    ∧ length (OutputFormatter._generate_subsection_analysis out)
      = Nat.min 5 (length (SectionExtractor.extract_sections [Examples.report])).
Proof.
  destruct (RelevanceRanker.rank_sections Examples.ranker
              (SectionExtractor.extract_sections [Examples.report])
              Examples.investor) as [out|e] eqn:Hrank;
    [|by vm_compute in Hrank].
  exists out. split; [done|].
  exact (proj1 (proj2 (output_keeps_top_five _ _ _ out Hrank))).
Defined.

(** X20. The cleaned content of a section has at most 1503 characters:
    the 1500 kept of a longer text and the three dots added to them. *)
Theorem clean_content_length (text : string) :
  Py.len (OutputFormatter._clean_content text) ≤ 1503.
Proof.
  unfold OutputFormatter._clean_content.
  destruct (Py.is_empty text); [unfold Py.len; simpl; lia|].
  etrans; [apply len_strip|].
  destruct (1500 <? Py.len (PyStr.join " " (Py.split text))) eqn:Hlong.
  - destruct (1200 <? PyStr.rfind "." _)%Z.
    + rewrite !len_slice_to. lia.
    + rewrite len_app_str, len_slice_to.
      change (Py.len "...") with 3. lia.
  - apply Nat.ltb_ge in Hlong. lia.
Qed.

Section NameFacts.
Import OutputFormatter.

Lemma char_in_app (c : ascii) (a b : string) :
  PyStr.char_in c (a +:+ b) = PyStr.char_in c a || PyStr.char_in c b.
Proof.
  induction a as [|x a IH]; [done|]. unfold String.app in *. simpl.
  by rewrite IH, orb_assoc.
Qed.

Lemma char_in_rev (c : ascii) (s : string) :
  PyStr.char_in c (String.rev s) = PyStr.char_in c s.
Proof.
  induction s as [|x s IH]; [done|].
  rewrite rev_cons, char_in_app, IH. simpl.
  rewrite orb_false_r. apply orb_comm.
Qed.

(** The last field of a split holds no separator; it is what follows the
    last separator of the text, and the text itself when the text holds
    none. *)
Lemma last_split_on_go sep cur s :
  PyStr.char_in sep cur = false →
  ∃ field,
    last (Py.split_on_go sep cur s) = Some field
    ∧ PyStr.char_in sep field = false
    ∧ if PyStr.char_in sep s
      then ∃ pre, String.rev cur +:+ s = pre +:+ String sep field
      else field = String.rev cur +:+ s.
Proof.
  revert cur. induction s as [|c s IH]; intros cur Hcur; simpl.
  - exists (String.rev cur). split_and!; [done| |by rewrite app_nil_r_str].
    by rewrite char_in_rev.
  - destruct (ascii_dec c sep) as [->|Hne].
    + destruct (IH "" eq_refl) as (field & Hlast & Hfield & Hpre).
      exists field. destruct (ascii_dec sep sep) as [_|?]; [|done].
      split_and!; [|done|].
      * rewrite last_cons. by rewrite Hlast.
      * simpl. destruct (PyStr.char_in sep s).
        -- destruct Hpre as (pre & Hpre).
           exists (String.rev cur +:+ String sep pre).
           rewrite app_assoc_str. f_equal. unfold String.app. simpl.
           f_equal. exact Hpre.
        -- exists (String.rev cur). by rewrite Hpre.
    + destruct (IH (String c cur)) as (field & Hlast & Hfield & Hpre).
      { simpl. destruct (ascii_dec sep c) as [->|_]; [done|]. done. }
      exists field. destruct (ascii_dec sep c) as [->|_]; [done|].
      split_and!; [done..|]. simpl.
      rewrite rev_cons, app_assoc_str in Hpre. exact Hpre.
Qed.

Lemma last_split_on sep s :
  ∃ field,
    PyStr.last_of (Py.split_on sep s) = Ok field
    ∧ PyStr.char_in sep field = false
    ∧ if PyStr.char_in sep s
      then ∃ pre, s = pre +:+ String sep field
      else field = s.
Proof.
  destruct (last_split_on_go sep "" s eq_refl) as (field & Hlast & ? & ?).
  exists field. unfold PyStr.last_of, Py.split_on. by rewrite Hlast.
Qed.

End NameFacts.

(** X21. The name listed for a document path is never missing.  For a
    path that holds a backslash it is what follows the last backslash:
    the path is a directory part, a backslash and the name, and the name
    holds no backslash.  For a path without backslash that holds a slash
    it is what follows the last slash.  A path without either is listed
    as it is. *)
Theorem doc_name_is_last_component (doc : string) :
  ∃ name,
    OutputFormatter.doc_name doc = Ok name
    ∧ (PyStr.char_in OutputFormatter.backslash doc = true →
       PyStr.char_in OutputFormatter.backslash name = false
       ∧ ∃ directory,
           doc = directory +:+ String OutputFormatter.backslash name)
    ∧ (PyStr.char_in OutputFormatter.backslash doc = false →
       PyStr.char_in OutputFormatter.slash doc = true →
       PyStr.char_in OutputFormatter.slash name = false
       ∧ ∃ directory,
           doc = directory +:+ String OutputFormatter.slash name)
    ∧ (PyStr.char_in OutputFormatter.backslash doc = false →
       PyStr.char_in OutputFormatter.slash doc = false →
       name = doc).
Proof.
  unfold OutputFormatter.doc_name.
  destruct (PyStr.char_in OutputFormatter.backslash doc) eqn:Hback.
  - destruct (last_split_on OutputFormatter.backslash doc)
      as (name & -> & Hname & Hdoc).
    rewrite Hback in Hdoc. exists name. split_and!; done.
  - destruct (PyStr.char_in OutputFormatter.slash doc) eqn:Hslash.
    + destruct (last_split_on OutputFormatter.slash doc)
        as (name & -> & Hname & Hdoc).
      rewrite Hslash in Hdoc. exists name. split_and!; done.
    + exists doc. split_and!; done.
Qed.

Lemma doc_name_is_last_component_witness :
  ∃ name,
    OutputFormatter.doc_name "/app/input/report.pdf" = Ok name
    ∧ PyStr.char_in OutputFormatter.slash name = false
    ∧ ∃ directory,
        "/app/input/report.pdf"
        = directory +:+ String OutputFormatter.slash name.
Proof.
  destruct (doc_name_is_last_component "/app/input/report.pdf")
    as (name & Hname & _ & Hslash & _).
  exists name. split; [exact Hname|].
  apply Hslash; vm_compute; reflexivity.
Defined.

(** ** Assembling a document *)

Section AssemblyFacts.
Import DocumentProcessor.


(** What the loop over the pages adds: one entry for each page that
    can be read, under the number of the page, with its text, in
    increasing order of the numbers. *)
Lemma extract_pages_adds pdf_pages page_num full_text page_contents :
  ∃ added,
    extract_pages pdf_pages page_num full_text page_contents
    = (full_text +:+ Notions.assembled added, page_contents ++ added)
    ∧ length added ≤ length pdf_pages
    ∧ (forallb Notions.read_ok pdf_pages = true →
       length added = length pdf_pages)
    ∧ Forall (fun page_info =>
                ∃ n text,
                  pg_page_number page_info = Some n
                  ∧ pg_text page_info = Some text
                  ∧ (page_num ≤ n < page_num + Z.of_nat (length pdf_pages))%Z)
        added
    ∧ StronglySorted
        (fun p q => (SectionExtractor.page_num_of p
                     < SectionExtractor.page_num_of q)%Z) added
    ∧ (∀ page_info,
         page_info ∈ added
         ↔ ∃ i extracted,
             pdf_pages !! i = Some (Ok extracted)
             ∧ page_info
               = {| pg_page_number := Some (page_num + Z.of_nat i)%Z;
                    pg_text := Some (default "" extracted) |}).
Proof.
  revert page_num full_text page_contents.
  induction pdf_pages as [|page pdf_pages IH];
    intros page_num full_text page_contents.
  - exists []. simpl. rewrite app_nil_r, app_nil_r_str.
    split_and!; [done..|constructor|constructor|].
    intros p. split; [by intros ?%elem_of_nil|]. by intros (i & e & ? & _).
  - destruct page as [extracted|e]; simpl.
    + destruct (IH (page_num + 1)%Z
                  (full_text +:+ default "" extracted +:+ page_break)
                  (page_contents
                   ++ [ {| pg_page_number := Some page_num;
                           pg_text := Some (default "" extracted) |} ]))
        as (added & -> & Hlen & Hall & Hnum & Hsorted & Hrec).
      exists ({| pg_page_number := Some page_num;
                pg_text := Some (default "" extracted) |} :: added).
      split_and!.
      * simpl. unfold SectionExtractor.page_text_of. simpl.
        by rewrite <- app_assoc, !app_assoc_str.
      * simpl. lia.
      * intros Hok. simpl. by rewrite Hall.
      * constructor.
        -- exists page_num, (default "" extracted). split_and!; [done..|lia|lia].
        -- eapply Forall_impl; [exact Hnum|]. simpl.
           intros p (n & text & ? & ? & ?). exists n, text.
           split_and!; [done..|lia|lia].
      * constructor; [done|].
        eapply Forall_impl; [exact Hnum|]. simpl.
        intros p (n & text & Hn & _ & ?).
        unfold SectionExtractor.page_num_of. rewrite Hn. simpl. lia.
      * intros p. rewrite elem_of_cons, Hrec. split.
        -- intros [->|(i & ex & Hi & ->)].
           ++ exists 0, extracted. split; [done|].
              by rewrite Z.add_0_r.
           ++ exists (S i), ex. split; [done|].
              do 2 f_equal. lia.
        -- intros ([|i] & ex & Hi & ->).
           ++ left. simpl in Hi. injection Hi as <-.
              by rewrite Z.add_0_r.
           ++ right. exists i, ex. split; [done|].
              do 2 f_equal. lia.
    + destruct (IH (page_num + 1)%Z full_text page_contents)
        as (added & -> & Hlen & Hall & Hnum & Hsorted & Hrec).
      exists added. split_and!; [done|lia|done| |done|].
      * eapply Forall_impl; [exact Hnum|]. simpl.
        intros p (n & text & ? & ? & ?). exists n, text.
        split_and!; [done..|lia|lia].
      * intros p. rewrite Hrec. split.
        -- intros (i & ex & Hi & ->). exists (S i), ex. split; [done|].
           do 2 f_equal. lia.
        -- intros ([|i] & ex & Hi & ->); [done|].
           exists i, ex. split; [done|]. do 2 f_equal. lia.
Qed.

End AssemblyFacts.

(** X22. The pages recorded for a file are the pages that can be read:
    a page is recorded exactly when the page at its place in the file
    gives a text, or no text, without raising; it is recorded under its
    place in the file, counted from 1, with its text, the empty text when
    it gives none.  The entries are in increasing order of the numbers,
    so a page that cannot be read leaves a gap; when every page can be
    read there is one entry per page.  The full text is the texts of the
    recorded pages, each followed by two line feeds, stripped. *)
Theorem extracted_pages_numbered (pdf_pages : list (result (option string))) :
  let text := (DocumentProcessor._extract_with_pypdf2 pdf_pages).1 in
  let pages := (DocumentProcessor._extract_with_pypdf2 pdf_pages).2 in
  text = Py.strip (Notions.assembled pages)
  ∧ length pages ≤ length pdf_pages
  ∧ (forallb Notions.read_ok pdf_pages = true →
     length pages = length pdf_pages)
  ∧ Forall (fun page_info =>
              ∃ n page_text,
                pg_page_number page_info = Some n
                ∧ pg_text page_info = Some page_text
                ∧ (1 ≤ n ≤ Z.of_nat (length pdf_pages))%Z) pages
  ∧ StronglySorted
      (fun p q => (SectionExtractor.page_num_of p
                   < SectionExtractor.page_num_of q)%Z) pages
  ∧ (∀ page_info,
       page_info ∈ pages
       ↔ ∃ i extracted,
           pdf_pages !! i = Some (Ok extracted)
           ∧ page_info
             = {| pg_page_number := Some (Z.of_nat i + 1)%Z;
                  pg_text := Some (default "" extracted) |}).
Proof.
  unfold DocumentProcessor._extract_with_pypdf2.
  destruct (extract_pages_adds pdf_pages 1%Z "" [])
    as (added & -> & Hlen & Hall & Hnum & Hsorted & Hrec).
  simpl. split_and!; [done..| |done|].
  - eapply Forall_impl; [exact Hnum|]. simpl.
    intros p (n & text & ? & ? & ?). exists n, text. split_and!; [done..|lia|lia].
  - intros p. rewrite Hrec. split.
    + intros (i & ex & Hi & ->). exists i, ex. split; [done|].
      do 2 f_equal. lia.
    + intros (i & ex & Hi & ->). exists i, ex. split; [done|].
      do 2 f_equal. lia.
Qed.

Lemma extracted_pages_numbered_witness :
  {| pg_page_number := Some 3%Z; pg_text := Some "" |}
  ∈ (DocumentProcessor._extract_with_pypdf2
       [Ok (Some "First page."); Err RuntimeError; Ok None]).2.
Proof.
  apply (proj2 (proj2 (proj2 (proj2 (proj2
           (extracted_pages_numbered
              [Ok (Some "First page."); Err RuntimeError; Ok None])))))).
  exists 2, None. split; reflexivity.
Defined.

Section LayoutFacts.



Lemma slice_from_add (n m : nat) (s : string) :
  Py.slice_from (n + m) s = Py.slice_from m (Py.slice_from n s).
Proof.
  revert s. induction n as [|n IH]; intros s; [done|].
  destruct s as [|c s]; simpl; [by destruct m | apply IH].
Qed.


End LayoutFacts.


(** ** The matcher and the meaning of a pattern *)

Section MatcherFacts.

Lemma star_chars p k pos prev s r :
  Re.star p k pos prev s = Some r →
  ∃ run s',
    s = run +:+ s' ∧ Notions.all_chars p run = true
    ∧ k (pos + Py.len run) (Notions.last_char prev run) s' = Some r.
Proof.
  revert pos prev. induction s as [|c s IH]; intros pos prev; simpl.
  - intros Hk. exists "", "". by rewrite Nat.add_0_r.
  - destruct (p c) eqn:Hc.
    + destruct (Re.star p k (S pos) (Some c) s) as [r'|] eqn:Hstar.
      * intros [= <-]. apply IH in Hstar as (run & s' & -> & Hrun & Hk).
        exists (String c run), s'. split_and!; [done| |].
        -- simpl. by rewrite Hc.
        -- simpl. unfold Py.len in *. simpl.
           by replace (pos + S (String.length run))
             with (S pos + String.length run) by lia.
      * intros Hk. exists "", (String c s). by rewrite Nat.add_0_r.
    + intros Hk. exists "", (String c s). by rewrite Nat.add_0_r.
Qed.

Lemma star_fallback p k pos prev s :
  is_Some (k pos prev s) → is_Some (Re.star p k pos prev s).
Proof.
  intros Hk. destruct s as [|c s]; simpl; [done|].
  destruct (p c); [|done]. by destruct (Re.star p k (S pos) (Some c) s).
Qed.

Lemma star_complete p k pos prev run s :
  Notions.all_chars p run = true →
  is_Some (k (pos + Py.len run) (Notions.last_char prev run) s) →
  is_Some (Re.star p k pos prev (run +:+ s)).
Proof.
  revert pos prev. induction run as [|c run IH]; intros pos prev; simpl.
  - intros _ Hk. apply star_fallback. by rewrite Nat.add_0_r in Hk.
  - intros [Hc Hrun]%andb_true_iff Hk.
    change (String c run +:+ s) with (String c (run +:+ s)). simpl.
    rewrite Hc.
    assert (is_Some (Re.star p k (S pos) (Some c) (run +:+ s))) as [r Hr].
    { apply IH; [done|]. unfold Py.len in *. simpl in Hk.
      by replace (S pos + String.length run)
        with (pos + S (String.length run)) by lia. }
    by rewrite Hr.
Qed.

(** A match the matcher reports is a match of the pattern. *)
Lemma m_atoms_sound pat gopen g pos prev s r :
  Re.m_atoms pat gopen g pos prev s = Some r →
  ∃ consumed rest,
    s = consumed +:+ rest ∧ Notions.matches pat prev consumed rest.
Proof.
  revert gopen g pos prev s.
  induction pat as [|a pat IH]; intros gopen g pos prev s; simpl.
  - intros _. by exists "", s.
  - destruct a; simpl.
    + destruct (Re.at_bol prev) eqn:Hbol; [|done].
      intros (consumed & rest & -> & Hm)%IH. by exists consumed, rest.
    + destruct (Re.at_eol s) eqn:Heol; [|done].
      intros (consumed & rest & -> & Hm)%IH. by exists consumed, rest.
    + unfold Re.one. destruct s as [|c s]; [done|].
      destruct (p c) eqn:Hc; [|done].
      intros (consumed & rest & -> & Hm)%IH.
      exists (String c consumed), rest. split; [done|].
      by exists c, consumed.
    + intros (run & s' & -> & Hrun & Hk)%star_chars.
      apply IH in Hk as (consumed & rest & -> & Hm).
      exists (run +:+ consumed), rest. split; [by rewrite app_assoc_str|].
      by exists run, consumed.
    + unfold Re.one. destruct s as [|c s]; [done|].
      destruct (p c) eqn:Hc; [|done].
      intros (run & s' & -> & Hrun & Hk)%star_chars.
      apply IH in Hk as (consumed & rest & -> & Hm).
      exists (String c (run +:+ consumed)), rest.
      split; [|by exists c, run, consumed].
      change (String c (run +:+ consumed) +:+ rest)
        with (String c ((run +:+ consumed) +:+ rest)).
      by rewrite app_assoc_str.
    + apply IH.
    + apply IH.
Qed.

(** Where the pattern matches, the matcher reports a match. *)
Lemma m_atoms_complete pat gopen g pos prev consumed rest :
  Notions.matches pat prev consumed rest →
  is_Some (Re.m_atoms pat gopen g pos prev (consumed +:+ rest)).
Proof.
  revert gopen g pos prev consumed.
  induction pat as [|a pat IH]; intros gopen g pos prev consumed; simpl.
  - done.
  - destruct a; simpl.
    + intros [-> Hm]. by apply IH.
    + intros [-> Hm]. by apply IH.
    + intros (c & consumed' & -> & Hc & Hm).
      change (String c consumed' +:+ rest) with (String c (consumed' +:+ rest)).
      simpl. rewrite Hc. by apply IH.
    + intros (run & consumed' & -> & Hrun & Hm).
      rewrite app_assoc_str. apply star_complete; [done|]. by apply IH.
    + intros (c & run & consumed' & -> & Hc & Hrun & Hm).
      change (String c (run +:+ consumed') +:+ rest)
        with (String c ((run +:+ consumed') +:+ rest)).
      simpl. rewrite Hc, app_assoc_str. apply star_complete; [done|].
      by apply IH.
    + apply IH.
    + apply IH.
Qed.

End MatcherFacts.

(** ** Named headings *)

Section NamedFacts.
Import SectionExtractor.

Lemma letter_of_lower (c : ascii) :
  Py.is_letter (Py.lower_char c) = true → Py.is_letter c = true.
Proof. destruct c as [[] [] [] [] [] [] [] []]; vm_compute; congruence. Qed.

Lemma lower_of_letter (c : ascii) :
  Py.is_letter c = true → Py.is_letter (Py.lower_char c) = true.
Proof. destruct c as [[] [] [] [] [] [] [] []]; vm_compute; congruence. Qed.

Lemma all_chars_app p (a b : string) :
  Notions.all_chars p (a +:+ b)
  = Notions.all_chars p a && Notions.all_chars p b.
Proof.
  induction a as [|x a IH]; [done|].
  change (String x a +:+ b) with (String x (a +:+ b)). simpl.
  by rewrite IH, andb_assoc.
Qed.

Lemma all_chars_impl (p q : ascii → bool) (s : string) :
  (∀ c, p c = true → q c = true) →
  Notions.all_chars p s = true → Notions.all_chars q s = true.
Proof.
  intros Hpq. induction s as [|c s IH]; simpl; [done|].
  intros [Hc Hs]%andb_true_iff. by rewrite (Hpq c Hc), IH.
Qed.

(** The text matched by the letters of a word: as many letters. *)
Lemma matches_word w tail prev consumed rest :
  Notions.all_chars Py.is_letter w = true →
  Notions.matches (Re.word w ++ tail) prev consumed rest →
  ∃ w' consumed',
    consumed = w' +:+ consumed'
    ∧ Py.len w' = Py.len w
    ∧ Notions.all_chars Py.is_letter w' = true
    ∧ Notions.matches tail (Notions.last_char prev w') consumed' rest.
Proof.
  revert prev consumed. induction w as [|x w IH]; intros prev consumed; simpl.
  - intros _ Hm. by exists "", consumed.
  - intros [Hx Hw]%andb_true_iff (c & consumed1 & -> & Hc & Hm).
    apply IH in Hm as (w' & consumed' & -> & Hlen & Hletters & Hm); [|done].
    exists (String c w'), consumed'. split_and!; [done| | |done].
    + unfold Py.len in *. simpl. by rewrite Hlen.
    + simpl. rewrite Hletters, andb_true_r.
      apply letter_of_lower. destruct (ascii_dec _ _) as [->|]; [|done].
      by apply lower_of_letter.
Qed.

(** What a named heading matches: the letters of the name, white space,
    and then the end of a line. *)
Lemma named_heading_shape w prev consumed rest :
  Notions.all_chars Py.is_letter w = true →
  Notions.matches (named_heading w) prev consumed rest →
  ∃ w' run,
    consumed = w' +:+ run
    ∧ Py.len w' = Py.len w
    ∧ Notions.all_chars Py.is_letter w' = true
    ∧ Notions.all_chars Py.is_space run = true
    ∧ Re.at_eol rest = true.
Proof.
  intros Hw. unfold named_heading. simpl. intros [_ Hm].
  apply matches_word in Hm as (w' & consumed' & -> & Hlen & Hletters & Hm);
    [|done].
  simpl in Hm. destruct Hm as (run & consumed'' & -> & Hrun & Heol & ->).
  exists w', run. rewrite app_nil_r_str in *. by split_and!.
Qed.

(** After the first letter of a named heading the pattern of a line in
    capitals matches. *)
Lemma all_caps_after_first_letter (w' run rest : string) :
  2 ≤ Py.len w' →
  Notions.all_chars Py.is_letter w' = true →
  Notions.all_chars Py.is_space run = true →
  Re.at_eol rest = true →
  ∃ m, Re.search all_caps_line ((w' +:+ run) +:+ rest) = Some m
       ∧ Re.m_start m = 0.
Proof.
  intros Hlen Hletters Hrun Heol.
  destruct w' as [|c2 [|c3 w3]]; [unfold Py.len in Hlen; simpl in Hlen; lia..|].
  simpl in Hletters.
  apply andb_true_iff in Hletters as [Hc2 [Hc3 Hw3]%andb_true_iff].
  assert (Notions.matches all_caps_line None
            (String c2 (String c3 w3) +:+ run) rest) as Hm.
  { unfold all_caps_line. simpl. split; [done|].
    exists c2, (String c3 (w3 +:+ run)). split_and!; [done..|].
    exists c3, (w3 +:+ run), "". split_and!.
    - by rewrite app_nil_r_str.
    - unfold Re.letter_or_space. by rewrite Hc3.
    - rewrite all_chars_app. apply andb_true_iff. split.
      + eapply all_chars_impl; [|exact Hw3].
        intros x Hx. unfold Re.letter_or_space. by rewrite Hx.
      + eapply all_chars_impl; [|exact Hrun].
        intros x Hx. unfold Re.letter_or_space. rewrite Hx. apply orb_true_r.
    - done.
    - done. }
  apply (m_atoms_complete _ 0 None 0) in Hm as [[e g] Hm].
  change ((String c2 (String c3 w3) +:+ run) +:+ rest)
    with (String c2 ((String c3 w3 +:+ run) +:+ rest)) in *.
  unfold Re.search. cbn [Re.search_from]. unfold Re.match_at.
  rewrite Hm. by eexists.
Qed.

Lemma finditer_from_suffix pat skip pos prev s m :
  m ∈ Re.finditer_from pat skip pos prev s →
  ∃ pos' prev',
    Re.match_at pat pos' prev' (Py.slice_from (pos' - pos) s) = Some m
    ∧ pos ≤ pos'.
Proof.
  revert skip pos prev. induction s as [|c s IH]; intros skip pos prev.
  - destruct skip as [|skip]; simpl; [|by intros ?%elem_of_nil].
    destruct (Re.match_at pat pos prev "") as [m'|] eqn:Hm; simpl;
      [|by intros ?%elem_of_nil].
    intros ->%list_elem_of_singleton. exists pos, prev.
    by rewrite Nat.sub_diag.
  - assert (∀ skip', m ∈ Re.finditer_from pat skip' (S pos) (Some c) s →
              ∃ pos' prev',
                Re.match_at pat pos' prev'
                  (Py.slice_from (pos' - pos) (String c s)) = Some m
                ∧ pos ≤ pos') as Hrest.
    { intros skip' (pos' & prev' & Hm & Hpos)%IH.
      exists pos', prev'. split; [|lia].
      by replace (pos' - pos) with (S (pos' - S pos)) by lia. }
    destruct skip as [|skip]; simpl; [|apply Hrest].
    destruct (Re.match_at pat pos prev (String c s)) as [m'|] eqn:Hm;
      [|apply Hrest].
    intros [->|Hin]%elem_of_cons; [|by eapply Hrest].
    exists pos, prev. by rewrite Nat.sub_diag.
Qed.

Lemma heading_names_letters w :
  w ∈ Notions.heading_names →
  Notions.all_chars Py.is_letter w = true ∧ 3 ≤ Py.len w
  ∧ named_heading w ∈ header_patterns.
Proof.
  unfold Notions.heading_names. intros Hw.
  repeat (apply elem_of_cons in Hw as [->|Hw];
          [split_and!; [by vm_compute | vm_compute; lia
                        | unfold header_patterns;
                          solve [repeat (first [left | right])]] |]).
  by apply elem_of_nil in Hw.
Qed.

End NamedFacts.

(** X24. A heading found by one of the nine named patterns gives a
    segment only if a numbered heading matches further on in the text.
    Without one, the search for the end of the section starts at the
    second letter of the name, where the pattern of a line in capitals
    matches at once: the section ends one character after its start and
    is dropped as too short. *)
Theorem named_heading_needs_numbered_heading (doc : ProcessedDocument)
    (w : string) (m : Re.rmatch) :
  w ∈ Notions.heading_names →
  m ∈ Re.finditer (SectionExtractor.named_heading w) (text_content doc) →
  Re.search SectionExtractor.numbered_heading
    (Py.slice_from (Re.m_start m + 1) (text_content doc)) = None →
  SectionExtractor._find_section_end (text_content doc) (Re.m_start m)
  = Re.m_start m + 1
  ∧ SectionExtractor.section_of_match doc (SectionExtractor.named_heading w) m
    = None.
Proof.
  intros (Hletters & Hlen & _)%heading_names_letters Hm Hnumbered.
  apply finditer_from_suffix in Hm as (pos & prev & Hm & _).
  rewrite Nat.sub_0_r in Hm.
  pose proof (match_at_start _ _ _ _ _ Hm) as Hstart. rewrite Hstart in *.
  unfold Re.match_at in Hm.
  destruct (Re.m_atoms _ _ _ _ _ _) as [r|] eqn:Hatoms; [|done].
  apply m_atoms_sound in Hatoms as (consumed & rest & Htext & Hmatches).
  apply named_heading_shape in Hmatches
    as (w' & run & -> & Hlen' & Hletters' & Hrun & Heol); [|done].
  destruct w' as [|c w']; [unfold Py.len in *; simpl in *; lia|].
  simpl in Hletters'. apply andb_true_iff in Hletters' as [_ Hletters'].
  assert (Py.slice_from (pos + 1) (text_content doc)
          = (w' +:+ run) +:+ rest) as Hremaining.
  { rewrite slice_from_add, Htext. done. }
  destruct (all_caps_after_first_letter w' run rest)
    as (m' & Hcaps & Hzero); [|done..|].
  { unfold Py.len in *. simpl in Hlen'. lia. }
  assert (SectionExtractor._find_section_end (text_content doc) pos = pos + 1)
    as Hend.
  { unfold SectionExtractor._find_section_end,
      SectionExtractor.header_patterns.
    simpl. rewrite Hremaining in *. rewrite Hnumbered, Hcaps, Hzero. lia. }
  split; [done|].
  unfold SectionExtractor.section_of_match. rewrite Hstart, Hend.
  assert ((Py.len (Py.strip (Py.slice pos (pos + 1) (text_content doc))) <? 50)
          = true) as ->; [|done].
  apply Nat.ltb_lt.
  pose proof (len_strip (Py.slice pos (pos + 1) (text_content doc))) as Hstrip.
  rewrite len_slice in Hstrip. lia.
Qed.

Lemma named_heading_needs_numbered_heading_witness :
  ∃ m, m ∈ Re.finditer (SectionExtractor.named_heading "Abstract")
             (text_content Examples.paper)
       ∧ SectionExtractor.section_of_match Examples.paper
           (SectionExtractor.named_heading "Abstract") m = None.
Proof.
  destruct (Re.finditer (SectionExtractor.named_heading "Abstract")
              (text_content Examples.paper)) as [|m rest] eqn:Hfind;
    [by vm_compute in Hfind|].
  exists m. split; [left|].
  apply (named_heading_needs_numbered_heading Examples.paper "Abstract" m).
  - left.
  - rewrite Hfind. left.
  - assert (m = {| Re.m_start := 0; Re.m_end := 8; Re.m_group := Some (0, 8) |})
      as -> by (vm_compute in Hfind; congruence).
    by vm_compute.
Defined.
